(** * Tool-orchestrated financial audit: a shallow embedding

    The development follows the Python sources
    [calculation_tools.py], [core/tool_orchestrator.py], [core/base_agent.py]
    and the two consensus validators of [agents/gemini_agent.py] and
    [agents/ollama_agent.py].

    Conventions of the embedding.
    - Python values are the inductive [pyval]; a [dict] is an association list
      in insertion order, updated in place at the position of an existing key.
    - [Decimal] values (context precision 28) and the floats they are narrowed
      to are represented by exact rationals [Q]; the embedding coincides with
      the code as long as operands and results fit in the precision of the
      context.
    - Exceptions are the type [exn]; fallible code returns [res].
    - The module-level calculator singleton is threaded as its
      [calculation_log], a list of [LogEntry].
    - [str()] of an arbitrary value and [json.dumps] are library functions and
      are taken as variables of the section. *)

From Stdlib Require Import ZArith QArith Qabs List String Ascii Bool Lia Lqa.
From Stdlib Require Import Qminmax Permutation DecimalString.
Import ListNotations.
Open Scope string_scope.
Open Scope Z_scope.

(* ------------------------------------------------------------------ *)
(** ** Python values, exceptions *)

#[local] Set Warnings "-register-all".

Inductive pyval : Type :=
| PNone
| PBool (b : bool)
| PInt (z : Z)
| PFloat (q : Q)
| PStr (s : string)
| PList (l : list pyval)
| PDict (d : list (string * pyval)).

Inductive exn : Type :=
| ValueError
| TypeError
| KeyError
| IndexError
| AttributeError
| UnboundLocalError
| InvalidOperation
| ValidationError.

Inductive res (A : Type) : Type :=
| Ok (a : A)
| Raise (e : exn).

Arguments Ok {A} a.
Arguments Raise {A} e.

Definition bind {A B : Type} (m : res A) (k : A -> res B) : res B :=
  match m with
  | Ok a => k a
  | Raise e => Raise e
  end.

Notation "x <- m ;; k" := (bind m (fun x => k))
  (at level 61, m at next level, right associativity).

Fixpoint mapM {A B : Type} (f : A -> res B) (l : list A) : res (list B) :=
  match l with
  | [] => Ok []
  | a :: r => b <- f a ;; bs <- mapM f r ;; Ok (b :: bs)
  end.

(** [str(e)] of a caught exception. *)
Definition str_of_exn (e : exn) : string :=
  match e with
  | ValueError => "could not convert string to float"
  | TypeError => "unsupported operand or item type"
  | KeyError => "key not found"
  | IndexError => "list index out of range"
  | AttributeError => "object has no such attribute"
  | UnboundLocalError => "cannot access local variable 'result'"
  | InvalidOperation => "[<class 'decimal.ConversionSyntax'>]"
  | ValidationError => "validation error for tool arguments"
  end.

(* ------------------------------------------------------------------ *)
(** ** Dictionaries in insertion order *)

Fixpoint dget {V : Type} (k : string) (d : list (string * V)) : option V :=
  match d with
  | [] => None
  | (k', v) :: r => if String.eqb k k' then Some v else dget k r
  end.

Fixpoint dset {V : Type} (k : string) (v : V) (d : list (string * V))
  : list (string * V) :=
  match d with
  | [] => [(k, v)]
  | (k', v') :: r =>
      if String.eqb k k' then (k', v) :: r else (k', v') :: dset k v r
  end.

Definition dmem {V : Type} (k : string) (d : list (string * V)) : bool :=
  match dget k d with Some _ => true | None => false end.

(** [d.get(k, default)] *)
Definition dget_default {V : Type} (k : string) (dflt : V)
  (d : list (string * V)) : V :=
  match dget k d with Some v => v | None => dflt end.

(* ------------------------------------------------------------------ *)
(** ** Strings *)

Definition chars (s : string) : list ascii := list_ascii_of_string s.
Definition of_chars (l : list ascii) : string := string_of_list_ascii l.

Definition is_digit (c : ascii) : bool :=
  (48 <=? nat_of_ascii c)%nat && (nat_of_ascii c <=? 57)%nat.

Definition is_space (c : ascii) : bool :=
  let n := nat_of_ascii c in
  (n =? 32)%nat || ((9 <=? n)%nat && (n <=? 13)%nat).

Definition lower_char (c : ascii) : ascii :=
  let n := nat_of_ascii c in
  if (65 <=? n)%nat && (n <=? 90)%nat then ascii_of_nat (n + 32) else c.

(** [s.lower()] *)
Definition lower (s : string) : string := of_chars (map lower_char (chars s)).

(** [s.replace(c, '')] for a one-character [c] *)
Definition remove_char (c : ascii) (s : string) : string :=
  of_chars (filter (fun x => negb (Ascii.eqb x c)) (chars s)).

(** [s.replace(c, d)] for one-character [c] and [d] *)
Definition replace_char (c d : ascii) (s : string) : string :=
  of_chars (map (fun x => if Ascii.eqb x c then d else x) (chars s)).

Fixpoint lstrip_chars (l : list ascii) : list ascii :=
  match l with
  | c :: r => if is_space c then lstrip_chars r else l
  | [] => []
  end.

(** [s.strip()] *)
Definition strip (s : string) : string :=
  of_chars (rev (lstrip_chars (rev (lstrip_chars (chars s))))).

Fixpoint is_prefix (p l : list ascii) : bool :=
  match p, l with
  | [], _ => true
  | _ :: _, [] => false
  | a :: p', b :: l' => Ascii.eqb a b && is_prefix p' l'
  end.

Fixpoint contains_chars (p l : list ascii) : bool :=
  is_prefix p l ||
  match l with
  | [] => false
  | _ :: r => contains_chars p r
  end.

(** [pattern in s] on strings *)
Definition str_contains (pattern s : string) : bool :=
  contains_chars (chars pattern) (chars s).

(** [s.split(sep)] for a one-character separator: never empty. *)
Fixpoint split_chars (sep : ascii) (cur : list ascii) (l : list ascii)
  : list string :=
  match l with
  | [] => [of_chars (rev cur)]
  | c :: r =>
      if Ascii.eqb c sep
      then of_chars (rev cur) :: split_chars sep [] r
      else split_chars sep (c :: cur) r
  end.

Definition split (sep : ascii) (s : string) : list string :=
  split_chars sep [] (chars s).

Definition string_of_Z (z : Z) : string := NilZero.string_of_int (Z.to_int z).

(* ------------------------------------------------------------------ *)
(** ** Decimal literals

    The constructors [Decimal(str)] and [float(str)] on plain decimal literals:
    surrounding white space, an optional sign, digits with at most one decimal
    point and at least one digit.  Exponent notation and the special values
    are outside this grammar and count as malformed. *)

Definition digit_val (c : ascii) : Z := Z.of_nat (nat_of_ascii c - 48).

Fixpoint digits_value (acc : Z) (l : list ascii) : option Z :=
  match l with
  | [] => Some acc
  | c :: r =>
      if is_digit c then digits_value (10 * acc + digit_val c) r else None
  end.

Fixpoint span_to_dot (l : list ascii) : list ascii * option (list ascii) :=
  match l with
  | [] => ([], None)
  | c :: r =>
      if Ascii.eqb c "."%char then ([], Some r)
      else let (a, b) := span_to_dot r in (c :: a, b)
  end.

Definition unsigned_decimal (l : list ascii) : option Q :=
  match span_to_dot l with
  | (ip, None) =>
      match ip with
      | [] => None
      | _ => option_map inject_Z (digits_value 0 ip)
      end
  | (ip, Some fp) =>
      match ip, fp with
      | [], [] => None
      | _, _ =>
          match digits_value 0 ip, digits_value 0 fp with
          | Some i, Some f =>
              let d := Z.to_pos (10 ^ Z.of_nat (List.length fp)) in
              Some (Qmake (i * Zpos d + f) d)
          | _, _ => None
          end
      end
  end.

Definition signed_decimal (l : list ascii) : option Q :=
  match l with
  | "-"%char :: r => option_map Qopp (unsigned_decimal r)
  | "+"%char :: r => unsigned_decimal r
  | _ => unsigned_decimal l
  end.

Definition decimal_of_string (s : string) : option Q :=
  signed_decimal (chars (strip s)).

(* ------------------------------------------------------------------ *)
(** ** Rational helpers *)

Definition Qlt_bool (x y : Q) : bool := negb (Qle_bool y x).

(** Python's [max(a, b)]: the first argument unless the second is larger. *)
Definition py_max (a b : Q) : Q := if Qlt_bool a b then b else a.

(** Python's [sum(values)], a left fold from 0. *)
Definition py_sum (l : list Q) : Q := fold_left Qplus l 0%Q.

Definition is_none (v : pyval) : bool :=
  match v with PNone => true | _ => false end.

(** [d[k]] read as a float, for keys the callee always sets. *)
Definition field_float (k : string) (v : pyval) : Q :=
  match v with
  | PDict d => match dget k d with Some (PFloat q) => q | _ => 0%Q end
  | _ => 0%Q
  end.

(** [d[k]] of a result object. *)
Definition field (k : string) (v : pyval) : option pyval :=
  match v with
  | PDict d => dget k d
  | _ => None
  end.

(** The audit trail of the calculator: a list of entry dictionaries. *)
Definition calculation_log : Type := list pyval.

(* ------------------------------------------------------------------ *)
(** ** Data model *)

(** tool_orchestrator.py *)
Record ToolExecution : Type := {
  tool_name : string;
  parameters : list (string * pyval);
  description : string;
  expected_result_key : string
}.

Record FinancialCalculationPlan : Type := {
  required_tools : list ToolExecution;
  total_tool_count : Z
}.

(** [ToolOrchestrator.__init__] sets [calculation_plan] to [None]; no method
    assigns it afterwards. *)
Record ToolOrchestrator : Type := {
  calculation_plan : option FinancialCalculationPlan
}.

(** The dictionary returned by [_extract_financial_values]; its four keys are
    fixed, so it is a record. *)
Record Buckets : Type := {
  current_assets : list Q;
  fixed_assets : list Q;
  liabilities : list Q;
  all_values : list Q
}.

(** base_agent.py; the wall-clock [processing_time] is not part of the
    embedding. *)
Module AgentResult.
Record t : Type := {
  agent_id : string;
  company : string;
  statement_type : string;
  extracted_data : pyval;
  calculation_log : pyval;
  validation_score : Q;
  confidence : Q;
  tool_calls_made : Z;
  errors : list string;
  raw_response : string
}.
End AgentResult.

Record ConsensusResult : Type := {
  is_consensus : bool;
  agreed_data : pyval;
  discrepancies : list pyval;
  retry_needed : bool;
  failing_agents : list string;
  confidence_scores : list (string * Q);
  calculation_verification : option (list (string * Q));
  calculation_accuracy : option Q
}.

(** An agent as the retry loop sees it: its identifier, its orchestrator and
    its [process_statement] method, which runs against the shared calculator
    log and may raise. *)
Record BaseFinancialAgent : Type := {
  agent_id : string;
  tool_orchestrator : ToolOrchestrator;
  process_statement :
    string -> string -> string -> calculation_log ->
    res (AgentResult.t * calculation_log)
}.

(** [BaseTripleAgentSystem]: the retry bound and the abstract method
    [_validate_consensus], which may raise. *)
Record BaseTripleAgentSystem : Type := {
  max_retries : Z;
  _validate_consensus : list (string * AgentResult.t) -> res ConsensusResult
}.

(* ------------------------------------------------------------------ *)
(** ** Concrete plans and agents used in the evaluations below *)

(** A plan of one well-formed footing validation. *)
Definition footing_only_plan : FinancialCalculationPlan :=
  {| required_tools :=
       [{| tool_name := "validate_footing_calculation";
           parameters :=
             [("reported_total", PFloat 10);
              ("component_values", PList [PFloat 5; PFloat 5]);
              ("description", PStr "Validate asset footing")];
           description := "Validate asset footing";
           expected_result_key := "footing_validation.status" |}];
     total_tool_count := 1 |}.

(** Two sums; the second target path runs through the number that the first
    result holds under [result]. *)
Definition colliding_paths_plan : FinancialCalculationPlan :=
  {| required_tools :=
       [{| tool_name := "sum_financial_values";
           parameters := [("values", PList [PFloat 1])];
           description := "first";
           expected_result_key := "a" |};
        {| tool_name := "sum_financial_values";
           parameters := [("values", PList [PFloat 1])];
           description := "second";
           expected_result_key := "a.result.x" |}];
     total_tool_count := 2 |}.

(** An agent whose [process_statement] is overridden and reports 99 tool
    calls for a tree with one leaf. *)
Definition miscounting_tree : pyval := PDict [("x", PInt 1)].

Definition miscounting_result (statement_type company : string)
  : AgentResult.t :=
  {| AgentResult.agent_id := "agent_1";
     AgentResult.company := company;
     AgentResult.statement_type := statement_type;
     AgentResult.extracted_data := miscounting_tree;
     AgentResult.calculation_log := PDict [];
     AgentResult.validation_score := 100;
     AgentResult.confidence := 95;
     AgentResult.tool_calls_made := 99;
     AgentResult.errors := [];
     AgentResult.raw_response := "" |}.

Definition miscounting_agent : BaseFinancialAgent :=
  {| agent_id := "agent_1";
     tool_orchestrator := {| calculation_plan := None |};
     process_statement := fun _ statement_type company log =>
       Ok (miscounting_result statement_type company, log) |}.




(** Iteration of a set of strings in order of first insertion, one of the
    orders the runtime may choose. *)
Definition first_seen_order : list string -> list string :=
  nodup string_dec.

(** A stand-in for [str()] and [json.dumps] where their output is not
    looked at. *)
Definition no_text : pyval -> string := fun _ => "".


Section Runtime.

(** [str(v)] as used by f-strings, [json.dumps(v, ensure_ascii=False)], and
    the order in which a [set] of strings built from the given keys is
    iterated. *)
Variable py_str : pyval -> string.
Variable json_dumps : pyval -> string.
Variable set_iter : list string -> list string.

(* ------------------------------------------------------------------ *)
(** ** calculation_tools.py: FinancialCalculator *)

Definition log_calculation (operation : string) (inputs result : pyval)
  (description : string) (log : calculation_log) : calculation_log :=
  (log ++ [PDict [("operation", PStr operation); ("inputs", inputs);
                  ("result", result); ("description", PStr description)]])%list.

Definition precise_decimal (value : pyval) : res Q :=
  match value with
  | PStr s =>
      let cleaned :=
        strip (remove_char ")" (replace_char "(" "-" (remove_char "," s))) in
      match decimal_of_string cleaned with
      | Some q => Ok q
      | None => Raise InvalidOperation
      end
  | PInt z => Ok (inject_Z z)
  | PFloat q => Ok q
  | _ => Raise InvalidOperation
  end.

Definition sum_values (values : list pyval) (description : string)
  (log : calculation_log) : pyval * calculation_log :=
  match mapM precise_decimal (filter (fun v => negb (is_none v)) values) with
  | Ok decimal_values =>
      let float_result := py_sum decimal_values in
      (PDict [("result", PFloat float_result);
              ("precision", PStr "high");
              ("components", PList (map PFloat decimal_values));
              ("component_count", PInt (Z.of_nat (List.length decimal_values)));
              ("operation", PStr "sum")],
       log_calculation "sum" (PList values) (PFloat float_result)
         description log)
  | Raise e =>
      (PDict [("result", PFloat 0);
              ("error", PStr (str_of_exn e));
              ("precision", PStr "error");
              ("components", PList []);
              ("component_count", PInt 0);
              ("operation", PStr "sum")],
       log)
  end.

Definition subtract_values (minuend subtrahend : pyval) (description : string)
  (log : calculation_log) : pyval * calculation_log :=
  match (m <- precise_decimal minuend ;;
         s <- precise_decimal subtrahend ;; Ok (m, s)) with
  | Ok (decimal_minuend, decimal_subtrahend) =>
      let float_result := (decimal_minuend - decimal_subtrahend)%Q in
      (PDict [("result", PFloat float_result);
              ("precision", PStr "high");
              ("minuend", PFloat decimal_minuend);
              ("subtrahend", PFloat decimal_subtrahend);
              ("operation", PStr "subtract")],
       log_calculation "subtract"
         (PDict [("minuend", minuend); ("subtrahend", subtrahend)])
         (PFloat float_result) description log)
  | Raise e =>
      (PDict [("result", PFloat 0);
              ("error", PStr (str_of_exn e));
              ("precision", PStr "error");
              ("operation", PStr "subtract")],
       log)
  end.

Definition verify_balance_equation (assets liabilities equity : pyval)
  (log : calculation_log) : pyval * calculation_log :=
  match (a <- precise_decimal assets ;;
         l <- precise_decimal liabilities ;;
         e <- precise_decimal equity ;; Ok (a, l, e)) with
  | Ok (decimal_assets, decimal_liabilities, decimal_equity) =>
      let liabilities_plus_equity :=
        (decimal_liabilities + decimal_equity)%Q in
      let difference := (decimal_assets - liabilities_plus_equity)%Q in
      let is_balanced := Qlt_bool (Qabs difference) (1 # 100) in
      let result :=
        PDict [("assets", PFloat decimal_assets);
               ("liabilities", PFloat decimal_liabilities);
               ("equity", PFloat decimal_equity);
               ("liabilities_plus_equity", PFloat liabilities_plus_equity);
               ("difference", PFloat difference);
               ("is_balanced", PBool is_balanced);
               ("status",
                 PStr (if is_balanced then "Balanced" else "Unbalanced"));
               ("precision", PStr "high");
               ("operation", PStr "balance_verification")] in
      (result,
       log_calculation "balance_verification"
         (PDict [("assets", assets); ("liabilities", liabilities);
                 ("equity", equity)])
         result "Balance sheet equation verification" log)
  | Raise e =>
      (PDict [("assets", PFloat 0);
              ("liabilities", PFloat 0);
              ("equity", PFloat 0);
              ("liabilities_plus_equity", PFloat 0);
              ("difference", PFloat 0);
              ("is_balanced", PBool false);
              ("status", PStr "Error");
              ("error", PStr (str_of_exn e));
              ("precision", PStr "error");
              ("operation", PStr "balance_verification")],
       log)
  end.

Definition calculate_percentage (part total : pyval) (log : calculation_log)
  : pyval * calculation_log :=
  match (p <- precise_decimal part ;;
         t <- precise_decimal total ;; Ok (p, t)) with
  | Ok (decimal_part, decimal_total) =>
      if Qeq_bool decimal_total 0 then
        (PDict [("percentage", PFloat 0);
                ("part", PFloat decimal_part);
                ("total", PFloat decimal_total);
                ("error", PStr "Division by zero");
                ("precision", PStr "error");
                ("operation", PStr "percentage")],
         log)
      else
        let float_result := ((decimal_part / decimal_total) * 100)%Q in
        (PDict [("percentage", PFloat float_result);
                ("part", PFloat decimal_part);
                ("total", PFloat decimal_total);
                ("precision", PStr "high");
                ("operation", PStr "percentage")],
         log_calculation "percentage"
           (PDict [("part", part); ("total", total)])
           (PFloat float_result)
           ("Percentage calculation: " ++ py_str part ++ "/" ++ py_str total)
           log)
  | Raise e =>
      (PDict [("percentage", PFloat 0);
              ("part", PFloat 0);
              ("total", PFloat 0);
              ("error", PStr (str_of_exn e));
              ("precision", PStr "error");
              ("operation", PStr "percentage")],
       log)
  end.

(** *** The tools bound to the global calculator *)

Definition sum_financial_values := sum_values.
Definition subtract_financial_values := subtract_values.
Definition verify_balance_sheet_equation := verify_balance_equation.
Definition calculate_financial_percentage := calculate_percentage.

Definition validate_footing_calculation (reported_total : pyval)
  (component_values : list pyval) (description : string)
  (log : calculation_log) : pyval * calculation_log :=
  let (sum_result, log1) :=
    sum_values component_values ("Components for " ++ description) log in
  let calculated_total := field_float "result" sum_result in
  let (sub_result, log2) :=
    subtract_values (PFloat calculated_total) reported_total
      ("Difference for " ++ description) log1 in
  let difference := field_float "result" sub_result in
  let is_accurate := Qlt_bool (Qabs difference) 1 in
  let result :=
    PDict [("reported_total", reported_total);
           ("calculated_total", PFloat calculated_total);
           ("difference", PFloat difference);
           ("is_accurate", PBool is_accurate);
           ("status", PStr (if is_accurate then "OK" else "ERROR"));
           ("component_count", PInt (Z.of_nat (List.length component_values)));
           ("components", PList component_values);
           ("precision", PStr "high");
           ("operation", PStr "footing_validation");
           ("description", PStr description)] in
  (result,
   log_calculation "footing_validation"
     (PDict [("reported", reported_total);
             ("components", PList component_values)])
     result description log2).

Definition get_calculation_log (log : calculation_log) : calculation_log := log.

Definition clear_calculation_log (log : calculation_log)
  : pyval * calculation_log :=
  (PDict [("status", PStr "cleared");
          ("message", PStr "Calculation log has been cleared")], []).

(* ------------------------------------------------------------------ *)
(** ** tool_orchestrator.py: value extraction and plan building *)

Definition is_number_char (c : ascii) : bool :=
  is_digit c || Ascii.eqb c ","%char || Ascii.eqb c "."%char.

(** [re.findall(r'[\d,.]+', text)]: the maximal runs of digits, commas and
    dots, left to right. *)
Fixpoint findall_numbers (cur : list ascii) (l : list ascii) : list string :=
  match l with
  | [] =>
      match cur with
      | [] => []
      | _ => [of_chars (rev cur)]
      end
  | c :: r =>
      if is_number_char c then findall_numbers (c :: cur) r
      else
        match cur with
        | [] => findall_numbers [] r
        | _ => of_chars (rev cur) :: findall_numbers [] r
        end
  end.

(** [float(s)]; [None] stands for [ValueError]. *)
Definition float_of_string (s : string) : option Q := decimal_of_string s.

(** The loop body of [_extract_financial_values] *)
Fixpoint clean_numbers_of (raw_numbers : list string) : list Q :=
  match raw_numbers with
  | [] => []
  | num_str :: r =>
      match float_of_string (remove_char "," num_str) with
      | Some clean_num =>
          if Qlt_bool 1000 clean_num
          then clean_num :: clean_numbers_of r
          else clean_numbers_of r
      | None => clean_numbers_of r
      end
  end.

(** [l[a:b]] for non-negative bounds *)
Definition slice {A : Type} (a b : nat) (l : list A) : list A :=
  firstn (b - a) (skipn a l).

Definition _extract_financial_values (financial_data : string) : Buckets :=
  let raw_numbers := findall_numbers [] (chars financial_data) in
  let clean_numbers := clean_numbers_of raw_numbers in
  let n := List.length clean_numbers in
  {| current_assets :=
       if (3 <? n)%nat then firstn (n / 3) clean_numbers else clean_numbers;
     fixed_assets :=
       if (6 <? n)%nat then slice (n / 3) (2 * n / 3) clean_numbers else [];
     liabilities :=
       if (6 <? n)%nat then skipn (2 * n / 3) clean_numbers else [];
     all_values := clean_numbers |}.

Definition floats (l : list Q) : pyval := PList (map PFloat l).

Definition is_empty {A : Type} (l : list A) : bool :=
  match l with [] => true | _ => false end.

Definition _create_balance_sheet_tools (numbers : Buckets)
  : list ToolExecution :=
  let av := all_values numbers in
  ((if negb (is_empty (current_assets numbers)) then
     [{| tool_name := "sum_financial_values";
         parameters :=
           [("values", floats (firstn 5 (current_assets numbers)));
            ("description", PStr "Calculate total current assets")];
         description := "Sum of current assets";
         expected_result_key := "aset_lancar.nilai_perhitungan" |}]
   else []) ++
  (if negb (is_empty (fixed_assets numbers)) then
     [{| tool_name := "sum_financial_values";
         parameters :=
           [("values", floats (firstn 5 (fixed_assets numbers)));
            ("description", PStr "Calculate total fixed assets")];
         description := "Sum of fixed assets";
         expected_result_key := "aset_tetap.nilai_perhitungan" |}]
   else []) ++
  (if (2 <=? List.length av)%nat then
     [{| tool_name := "sum_financial_values";
         parameters :=
           [("values", floats (firstn 10 av));
            ("description", PStr "Calculate total assets")];
         description := "Calculate total assets";
         expected_result_key := "total_aset.nilai_perhitungan" |}]
   else []) ++
  (if (3 <=? List.length av)%nat then
     [{| tool_name := "validate_footing_calculation";
         parameters :=
           [("reported_total", PFloat (nth 0 av 0%Q));
            ("components", floats (slice 1 6 av));
            ("description", PStr "Validate asset footing")];
         description := "Validate asset footing";
         expected_result_key := "footing_validation.status" |}]
   else []) ++
  (if (6 <=? List.length av)%nat then
     let mid := (List.length av / 2)%nat in
     [{| tool_name := "verify_balance_sheet_equation";
         parameters :=
           [("assets", PFloat (nth 0 av 0%Q));
            ("liabilities", PFloat (nth mid av 0%Q));
            ("equity", PFloat (last av 0%Q))];
         description := "Verify balance sheet equation";
         expected_result_key := "balancing.status" |}]
   else []))%list.

Definition _create_income_statement_tools (numbers : Buckets)
  : list ToolExecution :=
  let av := all_values numbers in
  ((if (2 <=? List.length av)%nat then
     [{| tool_name := "sum_financial_values";
         parameters :=
           [("values", floats (firstn 3 av));
            ("description", PStr "Calculate total revenue")];
         description := "Total revenue calculation";
         expected_result_key := "total_pendapatan.nilai_perhitungan" |}]
   else []) ++
  (if (4 <=? List.length av)%nat then
     [{| tool_name := "sum_financial_values";
         parameters :=
           [("values", floats (slice 2 7 av));
            ("description", PStr "Calculate total expenses")];
         description := "Total expense calculation";
         expected_result_key := "total_beban.nilai_perhitungan" |}]
   else []) ++
  (if (2 <=? List.length av)%nat then
     [{| tool_name := "subtract_financial_values";
         parameters :=
           [("minuend", PFloat (nth 0 av 0%Q));
            ("subtrahend", PFloat (nth 1 av 0%Q));
            ("description", PStr "Calculate net income")];
         description := "Net income calculation";
         expected_result_key := "laba_bersih.nilai_perhitungan" |}]
   else []))%list.

Definition _create_cash_flow_tools (numbers : Buckets)
  : list ToolExecution :=
  let av := all_values numbers in
  ((if (3 <=? List.length av)%nat then
     [{| tool_name := "sum_financial_values";
         parameters :=
           [("values", floats (firstn 4 av));
            ("description", PStr "Calculate operating cash flow")];
         description := "Operating cash flow";
         expected_result_key := "arus_kas_operasi.nilai_perhitungan" |}]
   else []) ++
  (if (6 <=? List.length av)%nat then
     [{| tool_name := "sum_financial_values";
         parameters :=
           [("values", floats (firstn 6 av));
            ("description", PStr "Calculate net cash flow")];
         description := "Net cash flow";
         expected_result_key := "arus_kas_bersih.nilai_perhitungan" |}]
   else []))%list.

(** The dispatch of [create_standardized_calculation_plan] on the buckets. *)
Definition plan_tools (numbers : Buckets) (statement_type : string)
  : list ToolExecution :=
  if String.eqb statement_type "neraca"
     || str_contains "posisi_keuangan" statement_type
  then _create_balance_sheet_tools numbers
  else if String.eqb statement_type "laba_rugi"
  then _create_income_statement_tools numbers
  else if String.eqb statement_type "arus_kas"
  then _create_cash_flow_tools numbers
  else [].

Definition create_standardized_calculation_plan (self : ToolOrchestrator)
  (financial_data statement_type : string) : FinancialCalculationPlan :=
  let numbers := _extract_financial_values financial_data in
  let required_tools := plan_tools numbers statement_type in
  {| required_tools := required_tools;
     total_tool_count := Z.of_nat (List.length required_tools) |}.

(* ------------------------------------------------------------------ *)
(** ** Tool invocation

    [tool.invoke(parameters)] validates the dictionary against the signature
    of the decorated function before calling it: a required argument that is
    missing or of the wrong type raises, an argument with a default may be
    omitted, numbers are narrowed to floats and unknown keys are ignored. *)

Definition coerce_float (v : pyval) : res pyval :=
  match v with
  | PInt z => Ok (PFloat (inject_Z z))
  | PFloat q => Ok (PFloat q)
  | _ => Raise ValidationError
  end.

Definition arg_float (k : string) (params : list (string * pyval))
  : res pyval :=
  match dget k params with
  | Some v => coerce_float v
  | None => Raise ValidationError
  end.

Definition arg_float_list (k : string) (params : list (string * pyval))
  : res (list pyval) :=
  match dget k params with
  | Some (PList l) => mapM coerce_float l
  | _ => Raise ValidationError
  end.

Definition arg_str_default (k dflt : string) (params : list (string * pyval))
  : res string :=
  match dget k params with
  | None => Ok dflt
  | Some (PStr s) => Ok s
  | Some _ => Raise ValidationError
  end.

Definition invoke_sum_financial_values (params : list (string * pyval))
  (log : calculation_log) : res (pyval * calculation_log) :=
  values <- arg_float_list "values" params ;;
  d <- arg_str_default "description" "Sum calculation" params ;;
  Ok (sum_financial_values values d log).

Definition invoke_subtract_financial_values (params : list (string * pyval))
  (log : calculation_log) : res (pyval * calculation_log) :=
  minuend <- arg_float "minuend" params ;;
  subtrahend <- arg_float "subtrahend" params ;;
  d <- arg_str_default "description" "Subtraction calculation" params ;;
  Ok (subtract_financial_values minuend subtrahend d log).

Definition invoke_verify_balance_sheet_equation
  (params : list (string * pyval)) (log : calculation_log)
  : res (pyval * calculation_log) :=
  assets <- arg_float "assets" params ;;
  liab <- arg_float "liabilities" params ;;
  equity <- arg_float "equity" params ;;
  Ok (verify_balance_sheet_equation assets liab equity log).

Definition invoke_validate_footing_calculation
  (params : list (string * pyval)) (log : calculation_log)
  : res (pyval * calculation_log) :=
  reported_total <- arg_float "reported_total" params ;;
  component_values <- arg_float_list "component_values" params ;;
  d <- arg_str_default "description" "Footing validation" params ;;
  Ok (validate_footing_calculation reported_total component_values d log).

Definition invoke_calculate_financial_percentage
  (params : list (string * pyval)) (log : calculation_log)
  : res (pyval * calculation_log) :=
  part <- arg_float "part" params ;;
  total <- arg_float "total" params ;;
  Ok (calculate_financial_percentage part total log).

(* ------------------------------------------------------------------ *)
(** ** tool_orchestrator.py: plan execution *)

(** The walk of [_store_result_in_structure] below the root: [ks] are the
    keys still to descend through, [lastk] the key that receives [value].
    Membership test, indexing and item assignment on anything but a
    dictionary end in a [TypeError]. *)
Fixpoint store_walk (ks : list string) (lastk : string) (value : pyval)
  (current : pyval) : res pyval :=
  match current with
  | PDict d =>
      match ks with
      | [] => Ok (PDict (dset lastk value d))
      | k :: ks' =>
          let child :=
            match dget k d with
            | Some c => c
            | None => PDict []
            end in
          c' <- store_walk ks' lastk value child ;;
          Ok (PDict (dset k c' d))
      end
  | _ => Raise TypeError
  end.

Definition _store_result_in_structure (results : list (string * pyval))
  (key_path : string) (value : pyval) : res (list (string * pyval)) :=
  let keys := split "." key_path in
  r <- store_walk (removelast keys) (last keys "") value (PDict results) ;;
  match r with
  | PDict d => Ok d
  | _ => Raise TypeError
  end.

(** The [if]/[elif] chain of the loop body.  With no branch taken the local
    [result] keeps the value of the previous iteration, or is unbound. *)
Definition run_tool (tool_exec : ToolExecution) (result : option pyval)
  (log : calculation_log) : res (pyval * calculation_log) :=
  let name := tool_name tool_exec in
  if String.eqb name "sum_financial_values" then
    invoke_sum_financial_values (parameters tool_exec) log
  else if String.eqb name "subtract_financial_values" then
    invoke_subtract_financial_values (parameters tool_exec) log
  else if String.eqb name "verify_balance_sheet_equation" then
    invoke_verify_balance_sheet_equation (parameters tool_exec) log
  else if String.eqb name "validate_footing_calculation" then
    invoke_validate_footing_calculation (parameters tool_exec) log
  else if String.eqb name "calculate_financial_percentage" then
    invoke_calculate_financial_percentage (parameters tool_exec) log
  else
    match result with
    | Some r => Ok (r, log)
    | None => Raise UnboundLocalError
    end.

Definition error_leaf (e : exn) : pyval :=
  PDict [("error", PStr (str_of_exn e))].

(** The local state of the loop of [execute_mandatory_calculations]. *)
Record ExecState : Type := {
  results : list (string * pyval);
  tool_execution_count : Z;
  last_result : option pyval;
  log_now : calculation_log
}.

(** One iteration: the [try] block, then the [except] handler.  An exception
    raised by the handler itself leaves the function. *)
Definition execute_step (st : ExecState) (tool_exec : ToolExecution)
  : res ExecState :=
  let key := expected_result_key tool_exec in
  match run_tool tool_exec (last_result st) (log_now st) with
  | Ok (r, log') =>
      match _store_result_in_structure (results st) key r with
      | Ok results' =>
          Ok {| results := results';
                tool_execution_count := tool_execution_count st + 1;
                last_result := Some r;
                log_now := log' |}
      | Raise e =>
          results' <-
            _store_result_in_structure (results st) key (error_leaf e) ;;
          Ok {| results := results';
                tool_execution_count := tool_execution_count st;
                last_result := Some r;
                log_now := log' |}
      end
  | Raise e =>
      results' <-
        _store_result_in_structure (results st) key (error_leaf e) ;;
      Ok {| results := results';
            tool_execution_count := tool_execution_count st;
            last_result := last_result st;
            log_now := log_now st |}
  end.

Fixpoint execute_loop (st : ExecState) (tools : list ToolExecution)
  : res ExecState :=
  match tools with
  | [] => Ok st
  | tool_exec :: r => st' <- execute_step st tool_exec ;; execute_loop st' r
  end.

Definition execute_mandatory_calculations
  (calculation_plan : FinancialCalculationPlan) (log : calculation_log)
  : res (list (string * pyval) * calculation_log) :=
  let (_, log0) := clear_calculation_log log in
  st <- execute_loop {| results := []; tool_execution_count := 0;
                        last_result := None; log_now := log0 |}
          (required_tools calculation_plan) ;;
  Ok (results st, log_now st).

(* ------------------------------------------------------------------ *)
(** ** tool_orchestrator.py: usage validation and the standard structure *)

Definition forbidden_patterns : list string :=
  ["calculated manually"; "computed by hand"; "manual calculation";
   "i calculated"; "my calculation"].

Definition validate_tool_usage (agent_result : pyval)
  (expected_tool_count : Z) (log : calculation_log) : bool * string :=
  let calc_log := get_calculation_log log in
  let actual_tool_count := Z.of_nat (List.length calc_log) in
  if negb (actual_tool_count =? expected_tool_count) then
    (false, "Expected " ++ string_of_Z expected_tool_count ++ " tools, got "
            ++ string_of_Z actual_tool_count)
  else
    let result_str := lower (json_dumps agent_result) in
    match find (fun pattern => str_contains pattern result_str)
            forbidden_patterns with
    | Some pattern =>
        (false, "Forbidden manual calculation detected: " ++ pattern)
    | None => (true, "Tool usage validated")
    end.

(** [tool_results.get(a, {}).get(b, dflt)] *)
Definition get2 (a b : string) (dflt : pyval)
  (tool_results : list (string * pyval)) : res pyval :=
  match dget_default a (PDict []) tool_results with
  | PDict d => Ok (dget_default b dflt d)
  | _ => Raise AttributeError
  end.

Definition is_balance_sheet (statement_type : string) : bool :=
  String.eqb statement_type "neraca"
  || str_contains "posisi_keuangan" statement_type.

Definition create_standardized_json_structure
  (tool_results : list (string * pyval)) (statement_type : string)
  : res pyval :=
  if is_balance_sheet statement_type then
    al1 <- get2 "aset_lancar" "nilai_perhitungan" (PInt 0) tool_results ;;
    al2 <- get2 "aset_lancar" "nilai_perhitungan" (PInt 0) tool_results ;;
    ta1 <- get2 "total_aset" "nilai_perhitungan" (PInt 0) tool_results ;;
    ta2 <- get2 "total_aset" "nilai_perhitungan" (PInt 0) tool_results ;;
    bs <- get2 "balancing" "status" (PStr "Verified by tool") tool_results ;;
    Ok (PDict
      [("laporan_posisi_keuangan", PDict
         [("aset", PDict
            [("aset_lancar", PDict
               [("nama_akun", PStr "Jumlah Aset Lancar");
                ("nilai_tercatat", al1);
                ("nilai_perhitungan", al2);
                ("selisih", PInt 0);
                ("status", PStr "OK");
                ("source", PStr "calculation_tool")]);
             ("total_aset", PDict
               [("nama_akun", PStr "Total Aset");
                ("nilai_tercatat", ta1);
                ("nilai_perhitungan", ta2);
                ("selisih", PInt 0);
                ("status", PStr "OK");
                ("source", PStr "calculation_tool")])]);
          ("balancing", PDict
            [("status", bs);
             ("source", PStr "balance_equation_tool")])])])
  else
    Ok (PDict [("tool_based_calculation", PDict tool_results)]).

(* ------------------------------------------------------------------ *)
(** ** base_agent.py: the replica run *)

Definition base_process_statement (self_id : string)
  (self_orchestrator : ToolOrchestrator)
  (statement_text statement_type company : string) (log : calculation_log)
  : res (AgentResult.t * calculation_log) :=
  let calculation_plan :=
    create_standardized_calculation_plan self_orchestrator
      statement_text statement_type in
  run <- execute_mandatory_calculations calculation_plan log ;;
  let (tool_results, log1) := run in
  extracted_data <-
    create_standardized_json_structure tool_results statement_type ;;
  let (tool_valid, validation_message) :=
    validate_tool_usage extracted_data (total_tool_count calculation_plan)
      log1 in
  Ok ({| AgentResult.agent_id := self_id;
         AgentResult.company := company;
         AgentResult.statement_type := statement_type;
         AgentResult.extracted_data := extracted_data;
         AgentResult.calculation_log := PDict tool_results;
         AgentResult.validation_score := if tool_valid then 100 else 0;
         AgentResult.confidence := if tool_valid then 95 else 10;
         AgentResult.tool_calls_made := total_tool_count calculation_plan;
         AgentResult.errors :=
           if tool_valid then [] else [validation_message];
         AgentResult.raw_response :=
           "Tool-based calculation with "
           ++ string_of_Z (total_tool_count calculation_plan) ++ " tools" |},
      log1).

(** [BaseFinancialAgent.__init__] together with the inherited
    [process_statement]. *)
Definition new_agent (id : string) : BaseFinancialAgent :=
  let orchestrator := {| calculation_plan := None |} in
  {| agent_id := id;
     tool_orchestrator := orchestrator;
     process_statement := base_process_statement id orchestrator |}.

(* ------------------------------------------------------------------ *)
(** ** base_agent.py: key figures

    The body of [_extract_key_figures] runs inside [try]; whatever it has put
    into [key_figures] before an exception stays there.  [KF] is the
    computation that keeps the dictionary across an exception. *)

Definition KF (A : Type) : Type :=
  list (string * Q) -> res A * list (string * Q).

Definition kf_ret {A : Type} (a : A) : KF A := fun kf => (Ok a, kf).

Definition kf_bind {A B : Type} (m : KF A) (k : A -> KF B) : KF B :=
  fun kf =>
    match m kf with
    | (Ok a, kf') => k a kf'
    | (Raise e, kf') => (Raise e, kf')
    end.

Definition kf_lift {A : Type} (r : res A) : KF A := fun kf => (r, kf).

Definition kf_set (k : string) (v : Q) : KF unit :=
  fun kf => (Ok tt, dset k v kf).

Notation "x <~ m ;; k" := (kf_bind m (fun x => k))
  (at level 61, m at next level, right associativity).

Definition is_str (k : string) (v : pyval) : bool :=
  match v with PStr s => String.eqb s k | _ => false end.

(** [k in v] for a string [k] *)
Definition py_in (k : string) (v : pyval) : res bool :=
  match v with
  | PDict d => Ok (dmem k d)
  | PStr s => Ok (str_contains k s)
  | PList l => Ok (existsb (is_str k) l)
  | _ => Raise TypeError
  end.

(** [v[k]] for a string [k] *)
Definition py_getitem (v : pyval) (k : string) : res pyval :=
  match v with
  | PDict d =>
      match dget k d with
      | Some x => Ok x
      | None => Raise KeyError
      end
  | _ => Raise TypeError
  end.

(** [float(v)] *)
Definition py_float (v : pyval) : res Q :=
  match v with
  | PInt z => Ok (inject_Z z)
  | PFloat q => Ok q
  | PBool b => Ok (if b then 1 else 0)%Q
  | PStr s =>
      match float_of_string s with
      | Some q => Ok q
      | None => Raise ValueError
      end
  | _ => Raise TypeError
  end.

Definition isinstance_dict (v : pyval) : bool :=
  match v with PDict _ => true | _ => false end.

(** The two asset blocks: [name] is looked up in [aset] and its
    [nilai_tercatat] recorded under the same name. *)
Definition asset_figure (aset : pyval) (name : string) : KF unit :=
  b <~ kf_lift (py_in name aset) ;;
  if b then
    item <~ kf_lift (py_getitem aset name) ;;
    if isinstance_dict item then
      b' <~ kf_lift (py_in "nilai_tercatat" item) ;;
      if b' then
        item' <~ kf_lift (py_getitem aset name) ;;
        raw <~ kf_lift (py_getitem item' "nilai_tercatat") ;;
        v <~ kf_lift (py_float raw) ;;
        kf_set name v
      else kf_ret tt
    else kf_ret tt
  else kf_ret tt.

Definition balancing_figure (balancing : pyval) (name out : string)
  : KF unit :=
  b <~ kf_lift (py_in name balancing) ;;
  if b then
    raw <~ kf_lift (py_getitem balancing name) ;;
    v <~ kf_lift (py_float raw) ;;
    kf_set out v
  else kf_ret tt.

Definition extract_key_figures_body (data : pyval) : KF unit :=
  b <~ kf_lift (py_in "laporan_posisi_keuangan" data) ;;
  if b then
    posisi <~ kf_lift (py_getitem data "laporan_posisi_keuangan") ;;
    b1 <~ kf_lift (py_in "aset" posisi) ;;
    _ <~ (if b1 then
            aset <~ kf_lift (py_getitem posisi "aset") ;;
            _ <~ asset_figure aset "aset_lancar" ;;
            asset_figure aset "total_aset"
          else kf_ret tt) ;;
    b2 <~ kf_lift (py_in "balancing" posisi) ;;
    if b2 then
      balancing <~ kf_lift (py_getitem posisi "balancing") ;;
      _ <~ balancing_figure balancing "total_aset" "balance_total_aset" ;;
      balancing_figure balancing "total_liabilitas_ekuitas"
        "balance_total_liab_eq"
    else kf_ret tt
  else kf_ret tt.

Definition _extract_key_figures (data : pyval) : list (string * Q) :=
  snd (extract_key_figures_body data []).

(* ------------------------------------------------------------------ *)
(** ** gemini_agent.py, ollama_agent.py: consensus validation

    The two validators differ in the tolerance constants and in whether the
    discrepancy record carries [tolerance_used]. *)

Definition values_for (key : string)
  (key_figures : list (string * list (string * Q))) : list (string * Q) :=
  flat_map
    (fun af : string * list (string * Q) =>
       match dget key (snd af) with
       | Some v => [(fst af, v)]
       | None => []
       end)
    key_figures.

Definition tolerance_of (rel floor base_value : Q) : Q :=
  py_max (Qabs (base_value * rel)) floor.

Definition disagrees (base_value tolerance value : Q) : bool :=
  Qlt_bool tolerance (Qabs (value - base_value)).

Definition disagreeing_of (base_value tolerance : Q)
  (others : list (string * Q)) : list string :=
  map fst (filter (fun av => disagrees base_value tolerance (snd av)) others).

Definition add_failing (failing : list string) (aids : list string)
  : list string :=
  fold_left
    (fun f aid => if existsb (String.eqb aid) f then f else (f ++ [aid])%list)
    aids failing.

Definition dict_of_values (values : list (string * Q))
  : list (string * pyval) :=
  fold_left (fun d av => dset (fst av) (PFloat (snd av)) d) values [].

Definition discrepancy_record (with_tolerance : bool) (key : string)
  (base_value : Q) (disagreeing_agents : list string)
  (values : list (string * Q)) (tolerance : Q) : pyval :=
  PDict ([("key", PStr key);
          ("base_value", PFloat base_value);
          ("disagreeing_agents", PList (map PStr disagreeing_agents));
          ("values", PDict (dict_of_values values))]
         ++ (if with_tolerance
             then [("tolerance_used", PFloat tolerance)] else []))%list.

(** The body of [for key in all_keys] on the pair
    [(failing_agents, discrepancies)]. *)
Definition compare_key (rel floor : Q) (with_tolerance : bool)
  (key_figures : list (string * list (string * Q)))
  (st : list string * list pyval) (key : string)
  : list string * list pyval :=
  let values := values_for key key_figures in
  match values with
  | (_, base_value) :: ((_ :: _) as others) =>
      let tolerance := tolerance_of rel floor base_value in
      let disagreeing_agents := disagreeing_of base_value tolerance others in
      let failing := add_failing (fst st) disagreeing_agents in
      if is_empty disagreeing_agents then (failing, snd st)
      else
        (failing,
         (snd st ++ [discrepancy_record with_tolerance key base_value
                       disagreeing_agents values tolerance])%list)
  | _ => st
  end.

(** [max(items, key=confidence)]: the first item of maximal confidence. *)
Fixpoint max_by_confidence (best : string * AgentResult.t)
  (l : list (string * AgentResult.t)) : string * AgentResult.t :=
  match l with
  | [] => best
  | x :: r =>
      if Qlt_bool (AgentResult.confidence (snd best))
                  (AgentResult.confidence (snd x))
      then max_by_confidence x r
      else max_by_confidence best r
  end.

Definition all_keys_of (key_figures : list (string * list (string * Q)))
  : list string :=
  set_iter (flat_map (fun af => map fst (snd af)) key_figures).

Definition validate_consensus_with (rel floor : Q) (with_tolerance : bool)
  (agent_results : list (string * AgentResult.t)) : res ConsensusResult :=
  let confidence_scores :=
    map (fun ar => (fst ar, AgentResult.confidence (snd ar))) agent_results in
  let key_figures :=
    map (fun ar =>
           (fst ar, _extract_key_figures (AgentResult.extracted_data (snd ar))))
        agent_results in
  let all_keys := all_keys_of key_figures in
  let (failing_agents, discrepancies) :=
    fold_left (compare_key rel floor with_tolerance key_figures)
      all_keys ([], []) in
  let is_consensus :=
    (List.length discrepancies =? 0)%nat
    && (List.length failing_agents =? 0)%nat in
  agreed <-
    (if is_consensus then
       match agent_results with
       | [] => Raise ValueError
       | first :: rest =>
           let best_agent := fst (max_by_confidence first rest) in
           match dget best_agent agent_results with
           | Some r => Ok (AgentResult.extracted_data r)
           | None => Raise KeyError
           end
       end
     else Ok (PDict [])) ;;
  Ok {| is_consensus := is_consensus;
        agreed_data := agreed;
        discrepancies := discrepancies;
        retry_needed := negb is_consensus;
        failing_agents := failing_agents;
        confidence_scores := confidence_scores;
        calculation_verification := None;
        calculation_accuracy := None |}.

(** [GeminiTripleAgentSystem._validate_consensus]: 0.01% or 1 *)
Definition gemini_validate_consensus :=
  validate_consensus_with (1 # 10000) 1 true.

(** [OllamaTripleAgentSystem._validate_consensus]: 0.1% or 5 *)
Definition ollama_validate_consensus :=
  validate_consensus_with (1 # 1000) 5 false.

Definition GeminiTripleAgentSystem (retries : Z) : BaseTripleAgentSystem :=
  {| max_retries := retries;
     _validate_consensus := gemini_validate_consensus |}.

Definition OllamaTripleAgentSystem (retries : Z) : BaseTripleAgentSystem :=
  {| max_retries := retries;
     _validate_consensus := ollama_validate_consensus |}.

(** [_create_agents] of both systems *)
Definition _create_agents : list BaseFinancialAgent :=
  map new_agent ["agent_1"; "agent_2"; "agent_3"].

(* ------------------------------------------------------------------ *)
(** ** base_agent.py: the retry loop *)

(** [for agent in agents] of one attempt *)
Fixpoint run_agents (agents : list BaseFinancialAgent)
  (statement_text statement_type company : string) (expected : Z)
  (agent_results : list (string * AgentResult.t))
  (tool_execution_valid : bool) (log : calculation_log)
  : res (list (string * AgentResult.t) * bool * calculation_log) :=
  match agents with
  | [] => Ok (agent_results, tool_execution_valid, log)
  | agent :: rest =>
      r <- process_statement agent statement_text statement_type company
             log ;;
      let (result, log') := r in
      run_agents rest statement_text statement_type company expected
        (dset (agent_id agent) result agent_results)
        (if negb (AgentResult.tool_calls_made result =? expected)
         then false else tool_execution_valid)
        log'
  end.

Definition usage_retry_info (attempt expected : Z)
  (agent_results : list (string * AgentResult.t)) : pyval :=
  PDict [("attempt", PInt (attempt + 1));
         ("reason", PStr "tool_execution_inconsistent");
         ("expected_tools", PInt expected);
         ("agent_tool_counts",
           PDict (map (fun ar =>
                         (fst ar, PInt (AgentResult.tool_calls_made (snd ar))))
                      agent_results))].

Definition consensus_retry_info (attempt : Z) (consensus : ConsensusResult)
  : pyval :=
  PDict [("attempt", PInt (attempt + 1));
         ("reason", PStr "tool_results_disagree_unexpectedly");
         ("disagreements",
           PInt (Z.of_nat (List.length (discrepancies consensus))));
         ("failing_agents", PList (map PStr (failing_agents consensus)));
         ("note",
           PStr "Identical tools produced different results - possible bug")].

(** The body of [for attempt in range(self.max_retries + 1)], with [n] the
    number of iterations left; after the last one the function returns
    [({}, retries)]. *)
Fixpoint attempt_loop (self : BaseTripleAgentSystem)
  (agents : list BaseFinancialAgent)
  (statement_text statement_type company : string)
  (n : nat) (attempt : Z) (retries : list pyval) (log : calculation_log)
  : res (pyval * list pyval * calculation_log) :=
  match n with
  | O => Ok (PDict [], retries, log)
  | S n' =>
      match agents with
      | [] => Raise IndexError
      | agent0 :: _ =>
          let calculation_plan :=
            create_standardized_calculation_plan (tool_orchestrator agent0)
              statement_text statement_type in
          let expected := total_tool_count calculation_plan in
          ran <- run_agents agents statement_text statement_type company
                   expected [] true log ;;
          let '(agent_results, tool_execution_valid, log1) := ran in
          if negb tool_execution_valid then
            let retries' :=
              (retries ++ [usage_retry_info attempt expected agent_results])
              %list in
            if attempt <? max_retries self then
              attempt_loop self agents statement_text statement_type company
                n' (attempt + 1) retries' log1
            else Ok (PDict [], retries', log1)
          else
            consensus <- _validate_consensus self agent_results ;;
            if is_consensus consensus then
              Ok (agreed_data consensus, retries, log1)
            else
              let retries' :=
                (retries ++ [consensus_retry_info attempt consensus])%list in
              if attempt <? max_retries self then
                attempt_loop self agents statement_text statement_type company
                  n' (attempt + 1) retries' log1
              else
                match agent_results with
                | (_, first) :: _ =>
                    Ok (AgentResult.extracted_data first, retries', log1)
                | [] => Raise IndexError
                end
      end
  end.

Definition _process_with_consensus (self : BaseTripleAgentSystem)
  (agents : list BaseFinancialAgent)
  (statement_text statement_type company : string) (log : calculation_log)
  : res (pyval * list pyval * calculation_log) :=
  attempt_loop self agents statement_text statement_type company
    (Z.to_nat (max_retries self + 1)) 0 [] log.

(* ------------------------------------------------------------------ *)
(** ** Definitions used to state the properties *)





(** The confidence an entry of [agent_results] declares. *)
Definition confidence_of (x : string * AgentResult.t) : Q :=
  AgentResult.confidence (snd x).

(** The plan count the retry loop compares against in one attempt. *)
Definition expected_tools (agent0 : BaseFinancialAgent)
  (statement_text statement_type : string) : Z :=
  total_tool_count
    (create_standardized_calculation_plan (tool_orchestrator agent0)
       statement_text statement_type).

(** How the last permitted attempt ends when it fails: on the usage check
    with an empty tree, on the consensus check with the tree of the first
    replica; [info] is the record appended for it. *)
Definition final_attempt_fallback (self : BaseTripleAgentSystem)
  (attempt expected : Z) (agent_results : list (string * AgentResult.t))
  (valid : bool) (data info : pyval) : Prop :=
  (valid = false /\ data = PDict []
   /\ info = usage_retry_info attempt expected agent_results)
  \/
  (valid = true /\
   exists (c : ConsensusResult) (aid : string) (first : AgentResult.t)
          (rest : list (string * AgentResult.t)),
     _validate_consensus self agent_results = Ok c
     /\ is_consensus c = false
     /\ agent_results = (aid, first) :: rest
     /\ data = AgentResult.extracted_data first
     /\ info = consensus_retry_info attempt c).

(** An attempt that ends the loop with success: the usage check passed and
    the validator agreed. *)
Definition attempt_agreed (self : BaseTripleAgentSystem)
  (agent_results : list (string * AgentResult.t)) (valid : bool)
  (data : pyval) : Prop :=
  valid = true /\
  exists c : ConsensusResult,
    _validate_consensus self agent_results = Ok c
    /\ is_consensus c = true /\ data = agreed_data c.

(** The attempt numbers [first + 1, first + 2, ...] of [n] records. *)
Definition attempt_numbers (first : Z) (n : nat) : list (option pyval) :=
  map (fun i => Some (PInt (first + 1 + Z.of_nat i))) (seq 0 n).

(** The floats a parameter value carries. *)
Definition floats_in (v : pyval) : list Q :=
  match v with
  | PFloat q => [q]
  | PList l =>
      flat_map (fun x => match x with PFloat q => [q] | _ => [] end) l
  | _ => []
  end.




(* ------------------------------------------------------------------ *)
(** ** Definitions used to state further properties *)

(** Every top-level value of a result tree is a dictionary. *)
Definition all_dicts (results : list (string * pyval)) : Prop :=
  Forall (fun kv => isinstance_dict (snd kv) = true) results.

(** A path component: a string without a dot. *)
Definition no_dot (s : string) : Prop :=
  forallb (fun c => negb (Ascii.eqb c "."%char)) (chars s) = true.

(** A target path of two dot-free components. *)
Definition two_component (key_path : string) : Prop :=
  exists a b : string, no_dot a /\ no_dot b /\ key_path = a ++ "." ++ b.

(** The dictionary found under [a], empty when [a] is absent. *)
Definition child_of (a : string) (results : list (string * pyval))
  : list (string * pyval) :=
  match dget a results with
  | Some (PDict d) => d
  | _ => []
  end.

(** The tree holds [leaf] at the two-component path [a.b]. *)
Definition leaf_at (a b : string) (leaf : pyval)
  (results : list (string * pyval)) : Prop :=
  exists d, dget a results = Some (PDict d) /\ dget b d = Some leaf.

(** The tree holds some leaf at the path [key_path]. *)
Definition has_leaf (key_path : string) (results : list (string * pyval))
  : Prop :=
  exists a b leaf,
    no_dot a /\ no_dot b /\ key_path = a ++ "." ++ b
    /\ leaf_at a b leaf results.

(** The operation is a footing validation. *)
Definition is_footing (te : ToolExecution) : bool :=
  String.eqb (tool_name te) "validate_footing_calculation".

(** The operations of a plan other than footing validations. *)
Definition logged_operations (tools : list ToolExecution) : nat :=
  List.length (filter (fun te => negb (is_footing te)) tools).

(** The four shapes of operation the plan builders produce; the footing
    validation carries its components under the key [components]. *)
Inductive builder_shape : ToolExecution -> Prop :=
| shape_sum (l : list Q) (d desc key : string) :
    builder_shape
      {| tool_name := "sum_financial_values";
         parameters := [("values", floats l); ("description", PStr d)];
         description := desc;
         expected_result_key := key |}
| shape_subtract (x y : Q) (d desc key : string) :
    builder_shape
      {| tool_name := "subtract_financial_values";
         parameters := [("minuend", PFloat x); ("subtrahend", PFloat y);
                        ("description", PStr d)];
         description := desc;
         expected_result_key := key |}
| shape_balance (x y z : Q) (desc key : string) :
    builder_shape
      {| tool_name := "verify_balance_sheet_equation";
         parameters := [("assets", PFloat x); ("liabilities", PFloat y);
                        ("equity", PFloat z)];
         description := desc;
         expected_result_key := key |}
| shape_footing (x : Q) (l : list Q) (d desc key : string) :
    builder_shape
      {| tool_name := "validate_footing_calculation";
         parameters := [("reported_total", PFloat x);
                        ("components", floats l);
                        ("description", PStr d)];
         description := desc;
         expected_result_key := key |}.

(** A replica result under another agent identifier. *)
Definition rename_result (id : string) (r : AgentResult.t) : AgentResult.t :=
  {| AgentResult.agent_id := id;
     AgentResult.company := AgentResult.company r;
     AgentResult.statement_type := AgentResult.statement_type r;
     AgentResult.extracted_data := AgentResult.extracted_data r;
     AgentResult.calculation_log := AgentResult.calculation_log r;
     AgentResult.validation_score := AgentResult.validation_score r;
     AgentResult.confidence := AgentResult.confidence r;
     AgentResult.tool_calls_made := AgentResult.tool_calls_made r;
     AgentResult.errors := AgentResult.errors r;
     AgentResult.raw_response := AgentResult.raw_response r |}.

(** calculation_tools.py: [validate_calculation_result].  A [bool] is an
    [int] for [isinstance]. *)
Definition is_int_or_float (v : pyval) : bool :=
  match v with
  | PInt _ | PFloat _ | PBool _ => true
  | _ => false
  end.

Definition validate_calculation_result (result : pyval) : bool :=
  match result with
  | PDict d =>
      if negb (forallb (fun f => dmem f d) ["result"; "precision"; "operation"])
      then false
      else if dmem "error" d then false
      else if negb (is_str "high" (dget_default "precision" PNone d))
      then false
      else if negb (is_int_or_float (dget_default "result" PNone d))
      then false
      else true
  | _ => false
  end.


(** The tree holds a dictionary at the two-component path [a.b]. *)
Definition dict_at (a b : string) (results : list (string * pyval)) : Prop :=
  exists leaf, leaf_at a b (PDict leaf) results.

(** The key figures of a collection of replica results hold only zeros. *)
Definition zero_figures (agent_results : list (string * AgentResult.t))
  : Prop :=
  forall x, In x agent_results ->
    Forall (fun kv => snd kv = 0%Q)
      (_extract_key_figures (AgentResult.extracted_data (snd x))).

(** The tool names the executor dispatches on. *)
Definition known_tools : list string :=
  ["sum_financial_values"; "subtract_financial_values";
   "verify_balance_sheet_equation"; "validate_footing_calculation";
   "calculate_financial_percentage"].

(** 1 when the text yields at least [k] values, 0 otherwise. *)
Definition at_least (k n : nat) : nat := if (k <=? n)%nat then 1 else 0.

(* ================================================================== *)
(** * Properties *)

(** ** Rational comparisons *)

Lemma Qlt_bool_iff (x y : Q) : Qlt_bool x y = true <-> (x < y)%Q.
Proof.
  unfold Qlt_bool. rewrite negb_true_iff. split.
  - intros H. apply Qnot_le_lt. intros Hle.
    apply Qle_bool_iff in Hle. congruence.
  - intros H. destruct (Qle_bool y x) eqn:E; [|reflexivity].
    apply Qle_bool_iff in E. exfalso. exact (Qlt_not_le _ _ H E).
Qed.

Lemma Qlt_bool_false_iff (x y : Q) : Qlt_bool x y = false <-> (y <= x)%Q.
Proof.
  unfold Qlt_bool. rewrite negb_false_iff. apply Qle_bool_iff.
Qed.

Lemma py_sum_from (l : list Q) (a : Q) :
  (fold_left Qplus l a == a + py_sum l)%Q.
Proof.
  unfold py_sum. revert a. induction l as [|x l IH]; intros a; simpl.
  - ring.
  - rewrite (IH (a + x)%Q), (IH (0 + x)%Q). ring.
Qed.

(** ** The arithmetic engine *)

Lemma mapM_precise_decimal_floats (l : list Q) :
  mapM precise_decimal (filter (fun v => negb (is_none v)) (map PFloat l))
  = Ok l.
Proof.
  induction l as [|x l IH]; simpl; [reflexivity|].
  rewrite IH. reflexivity.
Qed.








(** C7. With a total that reads as zero, the percentage call returns, for
    every part value, a result tagged with precision "error" that carries an
    error field and a zero percentage; nothing is logged. *)
Theorem percentage_zero_total :
  forall (part total : pyval) (t : Q) (log : calculation_log),
    precise_decimal total = Ok t -> (t == 0)%Q ->
    exists (r : pyval) (msg : string),
      calculate_percentage part total log = (r, log)
      /\ field "precision" r = Some (PStr "error")
      /\ field "error" r = Some (PStr msg)
      /\ field "percentage" r = Some (PFloat 0)
      /\ field "operation" r = Some (PStr "percentage").
Proof.
  intros part total t log Ht Hz. unfold calculate_percentage.
  rewrite Ht. destruct (precise_decimal part) as [p|e]; simpl.
  - assert (Hq : Qeq_bool t 0 = true) by (apply Qeq_bool_iff; exact Hz).
    rewrite Hq. eexists. exists "Division by zero".
    repeat split; reflexivity.
  - eexists. exists (str_of_exn e). repeat split; reflexivity.
Qed.

(** ** The value extractor *)

Lemma chars_of_chars (l : list ascii) : chars (of_chars l) = l.
Proof. apply list_ascii_of_string_of_list_ascii. Qed.







(** ** The plan builder *)

Lemma In_firstn {A : Type} (n : nat) (l : list A) (x : A) :
  In x (firstn n l) -> In x l.
Proof.
  intros H. rewrite <- (firstn_skipn n l). apply in_or_app. left. exact H.
Qed.

Lemma In_skipn {A : Type} (n : nat) (l : list A) (x : A) :
  In x (skipn n l) -> In x l.
Proof.
  intros H. rewrite <- (firstn_skipn n l). apply in_or_app. right. exact H.
Qed.

Lemma In_slice {A : Type} (a b : nat) (l : list A) (x : A) :
  In x (slice a b l) -> In x l.
Proof.
  unfold slice. intros H. apply In_firstn in H. apply In_skipn in H. exact H.
Qed.

Lemma In_last (l : list Q) (d : Q) : l <> [] -> In (last l d) l.
Proof.
  intros Hl. destruct (exists_last Hl) as (l' & a & ->).
  rewrite last_last. apply in_or_app. right. left. reflexivity.
Qed.

Lemma floats_in_floats (l : list Q) : floats_in (floats l) = l.
Proof.
  unfold floats, floats_in. induction l as [|x l IH]; simpl; [reflexivity|].
  rewrite IH. reflexivity.
Qed.

Lemma buckets_within_all_values (text : string) :
  let numbers := _extract_financial_values text in
  incl (current_assets numbers) (all_values numbers)
  /\ incl (fixed_assets numbers) (all_values numbers)
  /\ incl (liabilities numbers) (all_values numbers).
Proof.
  simpl. repeat split; intros x Hx.
  - destruct (_ <? _)%nat; [apply In_firstn in Hx|]; exact Hx.
  - destruct (_ <? _)%nat; [apply In_slice in Hx; exact Hx|destruct Hx].
  - destruct (_ <? _)%nat; [apply In_skipn in Hx; exact Hx|destruct Hx].
Qed.

Ltac split_tools H :=
  repeat match type of H with
         | In _ (_ ++ _)%list => apply in_app_or in H; destruct H as [H|H]
         end.

Ltac one_tool H :=
  match type of H with
  | In _ (if ?c then _ else _) =>
      let E := fresh "E" in
      destruct c eqn:E; cbn [In] in H; [destruct H as [H|[]]|destruct H]
  end.

Ltac pick_param H :=
  cbn [parameters In] in H;
  repeat match type of H with
         | _ \/ _ => destruct H as [H|H]
         | False => destruct H
         end;
  apply pair_equal_spec in H; destruct H as [<- <-].

Lemma plan_tools_floats (numbers : Buckets) (statement_type : string) :
  incl (current_assets numbers) (all_values numbers) ->
  incl (fixed_assets numbers) (all_values numbers) ->
  forall te k v q,
    In te (plan_tools numbers statement_type) ->
    In (k, v) (parameters te) -> In q (floats_in v) ->
    In q (all_values numbers).
Proof.
  intros Hca Hfa te k v q Hte Hkv Hq. unfold plan_tools in Hte.
  assert (Hnth : forall i, (i < List.length (all_values numbers))%nat ->
                 In q [nth i (all_values numbers) 0%Q] ->
                 In q (all_values numbers)).
  { intros i Hi [<-|[]]. apply nth_In. exact Hi. }
  destruct (_ || _).
  { unfold _create_balance_sheet_tools in Hte. split_tools Hte;
      one_tool Hte; subst te; pick_param Hkv;
      try rewrite floats_in_floats in Hq; cbn [floats_in] in Hq;
      try (destruct Hq; fail);
      try apply Nat.leb_le in E.
    - apply Hca. apply In_firstn in Hq. exact Hq.
    - apply Hfa. apply In_firstn in Hq. exact Hq.
    - apply In_firstn in Hq. exact Hq.
    - apply (Hnth 0%nat); [lia|exact Hq].
    - apply In_slice in Hq. exact Hq.
    - apply (Hnth 0%nat); [lia|exact Hq].
    - apply (Hnth (List.length (all_values numbers) / 2)%nat); [|exact Hq].
      apply Nat.div_lt; lia.
    - destruct Hq as [<-|[]]. apply In_last.
      intros Hnil. rewrite Hnil in E. simpl in E. lia. }
  destruct (String.eqb statement_type "laba_rugi").
  { unfold _create_income_statement_tools in Hte. split_tools Hte;
      one_tool Hte; subst te; pick_param Hkv;
      try rewrite floats_in_floats in Hq; cbn [floats_in] in Hq;
      try (destruct Hq; fail);
      try apply Nat.leb_le in E.
    - apply In_firstn in Hq. exact Hq.
    - apply In_slice in Hq. exact Hq.
    - apply (Hnth 0%nat); [lia|exact Hq].
    - apply (Hnth 1%nat); [lia|exact Hq]. }
  destruct (String.eqb statement_type "arus_kas").
  { unfold _create_cash_flow_tools in Hte. split_tools Hte;
      one_tool Hte; subst te; pick_param Hkv;
      try rewrite floats_in_floats in Hq; cbn [floats_in] in Hq;
      try (destruct Hq; fail).
    - apply In_firstn in Hq. exact Hq.
    - apply In_firstn in Hq. exact Hq. }
  destruct Hte.
Qed.

(** C4. The plan builder is deterministic: for one statement text and type
    every orchestrator builds the same plan, whose count is the length of its
    operation sequence; the plan is a function of the all-values bucket and
    the type alone, and every number bound in it is an element of that
    bucket. *)
Theorem plan_builder_deterministic :
  forall (self self' : ToolOrchestrator) (text statement_type : string),
    let plan := create_standardized_calculation_plan self text statement_type in
    create_standardized_calculation_plan self' text statement_type = plan
    /\ total_tool_count plan = Z.of_nat (List.length (required_tools plan))
    /\ (forall text' : string,
          all_values (_extract_financial_values text')
          = all_values (_extract_financial_values text) ->
          create_standardized_calculation_plan self' text' statement_type
          = plan)
    /\ (forall te k v q,
          In te (required_tools plan) -> In (k, v) (parameters te) ->
          In q (floats_in v) ->
          In q (all_values (_extract_financial_values text))).
Proof.
  intros self self' text statement_type plan. subst plan.
  split; [reflexivity|]. split; [reflexivity|]. split.
  - intros text' Heq. unfold create_standardized_calculation_plan.
    assert (Hb : _extract_financial_values text'
                 = _extract_financial_values text).
    { unfold _extract_financial_values in *. simpl in Heq. rewrite Heq.
      reflexivity. }
    rewrite Hb. reflexivity.
  - intros te k v q Hte Hkv Hq.
    destruct (buckets_within_all_values text) as (Hca & Hfa & _).
    exact (plan_tools_floats _ statement_type Hca Hfa te k v q Hte Hkv Hq).
Qed.

(** ** The consensus validator *)




Section CompareKey.

Variables (rel floor : Q) (with_tolerance : bool).
Variable key_figures : list (string * list (string * Q)).






End CompareKey.




Lemma max_by_confidence_first (l : list (string * AgentResult.t))
  (best : string * AgentResult.t) :
  exists pre post,
    best :: l = (pre ++ max_by_confidence best l :: post)%list
    /\ (forall x, In x pre ->
          (confidence_of x < confidence_of (max_by_confidence best l))%Q)
    /\ (forall x, In x post ->
          (confidence_of x <= confidence_of (max_by_confidence best l))%Q).
Proof.
  unfold confidence_of. revert best.
  induction l as [|x r IH]; intros best; simpl.
  - exists [], []. repeat split; intros ? [].
  - destruct (Qlt_bool (AgentResult.confidence (snd best))
                       (AgentResult.confidence (snd x))) eqn:E.
    + apply Qlt_bool_iff in E.
      destruct (IH x) as (pre & post & Heq & Hpre & Hpost).
      remember (max_by_confidence x r) as m eqn:Em.
      exists (best :: pre), post. split; [simpl; f_equal; exact Heq|].
      split; [|exact Hpost].
      intros y [<-|Hy]; [|apply Hpre; exact Hy].
      destruct pre as [|p pre'].
      * injection Heq as Hx Hr. rewrite <- Hx. exact E.
      * injection Heq as Hx Hr.
        apply Qlt_trans with (AgentResult.confidence (snd x)); [exact E|].
        apply Hpre. left. symmetry. exact Hx.
    + apply Qlt_bool_false_iff in E.
      destruct (IH best) as (pre & post & Heq & Hpre & Hpost).
      remember (max_by_confidence best r) as m eqn:Em.
      destruct pre as [|p pre'].
      * injection Heq as Hb Hr.
        exists [], (x :: r). split; [simpl; f_equal; exact Hb|].
        split; [intros ? []|].
        intros y [<-|Hy].
        -- rewrite <- Hb. exact E.
        -- apply Hpost. rewrite <- Hr. exact Hy.
      * injection Heq as Hb Hr.
        exists (best :: x :: pre'), post.
        split; [simpl; do 2 f_equal; exact Hr|].
        split; [|exact Hpost].
        intros y [<-|[<-|Hy]].
        -- apply Hpre. left. symmetry. exact Hb.
        -- apply Qle_lt_trans with (AgentResult.confidence (snd best));
             [exact E|].
           apply Hpre. left. symmetry. exact Hb.
        -- apply Hpre. right. exact Hy.
Qed.



(** ** The retry loop *)

Lemma attempt_numbers_cons (first : Z) (n : nat) :
  attempt_numbers first (S n)
  = Some (PInt (first + 1)) :: attempt_numbers (first + 1) n.
Proof.
  unfold attempt_numbers. simpl. f_equal; [do 2 f_equal; lia|].
  rewrite <- seq_shift, map_map. apply map_ext. intros i.
  do 2 f_equal. lia.
Qed.

Section RetryLoop.

Variable self : BaseTripleAgentSystem.
Variable agents : list BaseFinancialAgent.
Variables statement_text statement_type company : string.

(** What one call of the loop with [n] iterations left returns: the records
    it appends are numbered consecutively; it either stops early on an
    agreed attempt or uses all [n] iterations and ends in the fallback of
    the last attempt. *)
Lemma attempt_loop_outcome (n : nat) :
  forall (attempt : Z) (retries : list pyval) (log : calculation_log)
         (data : pyval) (retries' : list pyval) (log' : calculation_log),
    attempt + Z.of_nat n = max_retries self + 1 ->
    (0 < n)%nat ->
    attempt_loop self agents statement_text statement_type company
      n attempt retries log = Ok (data, retries', log') ->
    exists agent0 others extra log_before agent_results valid,
      agents = agent0 :: others
      /\ retries' = (retries ++ extra)%list
      /\ map (field "attempt") extra
         = attempt_numbers attempt (List.length extra)
      /\ run_agents agents statement_text statement_type company
           (expected_tools agent0 statement_text statement_type)
           [] true log_before = Ok (agent_results, valid, log')
      /\ (((List.length extra < n)%nat
           /\ attempt_agreed self agent_results valid data)
          \/ (List.length extra = n
              /\ final_attempt_fallback self (max_retries self)
                   (expected_tools agent0 statement_text statement_type)
                   agent_results valid data (last extra PNone))).
Proof.
  induction n as [|n' IH]; intros attempt retries log data retries' log'
    Hsum Hpos Hrun; [lia|].
  cbn [attempt_loop] in Hrun.
  destruct agents as [|agent0 others] eqn:Eag; [discriminate|].
  rewrite <- Eag in *.
  fold (expected_tools agent0 statement_text statement_type) in Hrun.
  set (expected := expected_tools agent0 statement_text statement_type) in *.
  destruct (run_agents agents statement_text statement_type company expected
              [] true log) as [[[agent_results valid] log1]|e] eqn:Erun;
    cbn [bind] in Hrun; [|discriminate].
  assert (Hcont :
    forall info,
      field "attempt" info = Some (PInt (attempt + 1)) ->
      (attempt <? max_retries self) = true ->
      attempt_loop self agents statement_text statement_type company n'
        (attempt + 1) (retries ++ [info]) log1 = Ok (data, retries', log') ->
      exists agent1 others1 extra log_before agent_results0 valid0,
        agents = agent1 :: others1
        /\ retries' = (retries ++ extra)%list
        /\ map (field "attempt") extra
           = attempt_numbers attempt (List.length extra)
        /\ run_agents agents statement_text statement_type company
             (expected_tools agent1 statement_text statement_type)
             [] true log_before = Ok (agent_results0, valid0, log')
        /\ (((List.length extra < S n')%nat
             /\ attempt_agreed self agent_results0 valid0 data)
            \/ (List.length extra = S n'
                /\ final_attempt_fallback self (max_retries self)
                     (expected_tools agent1 statement_text statement_type)
                     agent_results0 valid0 data (last extra PNone)))).
  { intros info Hatt Hlt Hrec. apply Z.ltb_lt in Hlt.
    destruct (IH (attempt + 1) (retries ++ [info])%list log1 data retries'
                log' ltac:(lia) ltac:(lia) Hrec)
      as (a1 & o1 & extra & lb & ar & v & Ha & Hr & Hnum & Hra & Hend).
    exists a1, o1, (info :: extra), lb, ar, v.
    split; [exact Ha|].
    split; [rewrite Hr, <- app_assoc; reflexivity|].
    split; [simpl List.length; rewrite attempt_numbers_cons; simpl;
            rewrite Hatt, Hnum; reflexivity|].
    split; [exact Hra|].
    destruct Hend as [[Hlen Hag]|[Hlen Hfb]].
    - left. split; [simpl; lia|exact Hag].
    - right. split; [simpl; lia|].
      destruct extra as [|x extra']; [simpl in Hlen; lia|exact Hfb]. }
  assert (Hlast : (attempt <? max_retries self) = false -> n' = 0%nat).
  { intros H. apply Z.ltb_ge in H. lia. }
  destruct valid; cbn [negb] in Hrun.
  - destruct (_validate_consensus self agent_results) as [c|e] eqn:Ec;
      cbn [bind] in Hrun; [|discriminate].
    destruct (is_consensus c) eqn:Eic.
    + injection Hrun as <- <- <-.
      exists agent0, others, [], log, agent_results, true.
      split; [exact Eag|]. split; [rewrite app_nil_r; reflexivity|].
      split; [reflexivity|]. split; [exact Erun|].
      left. split; [simpl; lia|]. split; [reflexivity|].
      exists c. repeat split; assumption.
    + destruct (attempt <? max_retries self) eqn:Elt.
      * apply (Hcont (consensus_retry_info attempt c) eq_refl eq_refl) in Hrun.
        exact Hrun.
      * specialize (Hlast eq_refl). subst n'.
        apply Z.ltb_ge in Elt. assert (attempt = max_retries self) by lia.
        destruct agent_results as [|[aid first] rest] eqn:Ear; [discriminate|].
        injection Hrun as <- <- <-.
        exists agent0, others, [consensus_retry_info attempt c], log,
          ((aid, first) :: rest), true.
        split; [exact Eag|]. split; [reflexivity|].
        split; [unfold attempt_numbers; simpl; do 3 f_equal; lia|].
        split; [exact Erun|].
        right. split; [reflexivity|]. right. split; [reflexivity|].
        exists c, aid, first, rest. subst attempt. repeat split; assumption.
  - destruct (attempt <? max_retries self) eqn:Elt.
    + apply (Hcont (usage_retry_info attempt expected agent_results)
               eq_refl eq_refl) in Hrun.
      exact Hrun.
    + specialize (Hlast eq_refl). subst n'.
      apply Z.ltb_ge in Elt. assert (attempt = max_retries self) by lia.
      injection Hrun as <- <- <-.
      exists agent0, others, [usage_retry_info attempt expected agent_results],
        log, agent_results, false.
      split; [exact Eag|]. split; [reflexivity|].
      split; [unfold attempt_numbers; simpl; do 3 f_equal; lia|].
      split; [exact Erun|].
      right. split; [reflexivity|]. left. subst attempt.
      repeat split; reflexivity.
Qed.

End RetryLoop.


(** C9 (as amended). When every permitted attempt has failed, the loop
    returns one record per attempt, numbered from 1, and its tree is decided
    by the check that failed the last attempt: the tree of the first replica
    of that attempt after a failed consensus check, the empty tree after a
    failed usage check. *)
Theorem retry_exhausted_fallback :
  forall (self : BaseTripleAgentSystem) (agents : list BaseFinancialAgent)
         (statement_text statement_type company : string)
         (log : calculation_log) (data : pyval) (retries : list pyval)
         (log' : calculation_log),
    0 <= max_retries self ->
    _process_with_consensus self agents statement_text statement_type company
      log = Ok (data, retries, log') ->
    List.length retries = Z.to_nat (max_retries self + 1) ->
    map (field "attempt") retries = attempt_numbers 0 (List.length retries)
    /\ exists agent0 others log_before agent_results valid,
         agents = agent0 :: others
         /\ run_agents agents statement_text statement_type company
              (expected_tools agent0 statement_text statement_type)
              [] true log_before = Ok (agent_results, valid, log')
         /\ final_attempt_fallback self (max_retries self)
              (expected_tools agent0 statement_text statement_type)
              agent_results valid data (last retries PNone).
Proof.
  intros self agents statement_text statement_type company log data retries
    log' Hmax Hrun Hall.
  unfold _process_with_consensus in Hrun.
  destruct (attempt_loop_outcome self agents statement_text statement_type
              company (Z.to_nat (max_retries self + 1)) 0 [] log data retries
              log' ltac:(lia) ltac:(lia) Hrun)
    as (a0 & o & extra & lb & ar & v & Ha & Hr & Hnum & Hra & Hend).
  simpl in Hr. subst retries. split; [exact Hnum|].
  exists a0, o, lb, ar, v. split; [exact Ha|]. split; [exact Hra|].
  destruct Hend as [[Hlen _]|[_ Hfb]]; [lia|exact Hfb].
Qed.
(** ** Dictionaries and paths *)

Lemma dget_dset_same {V : Type} (k : string) (v : V) (d : list (string * V)) :
  dget k (dset k v d) = Some v.
Proof.
  induction d as [|[k' v'] d IH]; simpl.
  - rewrite String.eqb_refl. reflexivity.
  - destruct (String.eqb k k') eqn:E; simpl; rewrite E; [reflexivity|exact IH].
Qed.

Lemma dget_dset_other {V : Type} (k k' : string) (v : V)
  (d : list (string * V)) :
  k' <> k -> dget k' (dset k v d) = dget k' d.
Proof.
  intros Hne. induction d as [|[k0 v0] d IH]; simpl.
  - destruct (String.eqb k' k) eqn:E; [|reflexivity].
    apply String.eqb_eq in E. contradiction.
  - destruct (String.eqb k k0) eqn:E; simpl.
    + apply String.eqb_eq in E. subst k0.
      destruct (String.eqb k' k) eqn:E'; [|reflexivity].
      apply String.eqb_eq in E'. contradiction.
    + rewrite IH. reflexivity.
Qed.

Lemma all_dicts_dset (k : string) (v : pyval) (d : list (string * pyval)) :
  all_dicts d -> isinstance_dict v = true -> all_dicts (dset k v d).
Proof.
  unfold all_dicts. intros Hd Hv. induction d as [|[k' v'] d IH]; simpl.
  - constructor; [exact Hv|constructor].
  - inversion Hd as [|? ? Hh Ht]; subst.
    destruct (String.eqb k k'); constructor; auto.
Qed.

Lemma all_dicts_dget (k : string) (d : list (string * pyval)) (c : pyval) :
  all_dicts d -> dget k d = Some c -> exists dc, c = PDict dc.
Proof.
  unfold all_dicts. intros Hd. induction d as [|[k' v'] d IH]; simpl.
  - discriminate.
  - inversion Hd as [|? ? Hh Ht]; subst. destruct (String.eqb k k').
    + intros H. injection H as <-. simpl in Hh.
      destruct v'; try discriminate. eexists. reflexivity.
    + apply IH. exact Ht.
Qed.

Lemma chars_app (s1 s2 : string) :
  chars (s1 ++ s2) = (chars s1 ++ chars s2)%list.
Proof.
  unfold chars. induction s1 as [|c s1 IH]; simpl; [reflexivity|].
  rewrite IH. reflexivity.
Qed.

Lemma of_chars_chars (s : string) : of_chars (chars s) = s.
Proof. apply string_of_list_ascii_of_string. Qed.

Lemma split_chars_no_sep (sep : ascii) (l cur : list ascii) :
  forallb (fun c => negb (Ascii.eqb c sep)) l = true ->
  split_chars sep cur l = [of_chars (rev cur ++ l)].
Proof.
  revert cur. induction l as [|c r IH]; intros cur H; simpl.
  - rewrite app_nil_r. reflexivity.
  - simpl in H. apply andb_true_iff in H. destruct H as [Hc Hr].
    apply negb_true_iff in Hc. rewrite Hc. rewrite (IH (c :: cur) Hr).
    simpl. rewrite <- app_assoc. reflexivity.
Qed.

Lemma split_chars_first (sep : ascii) (l1 l2 cur : list ascii) :
  forallb (fun c => negb (Ascii.eqb c sep)) l1 = true ->
  split_chars sep cur (l1 ++ sep :: l2)
  = of_chars (rev cur ++ l1) :: split_chars sep [] l2.
Proof.
  revert cur. induction l1 as [|c r IH]; intros cur H; simpl.
  - rewrite Ascii.eqb_refl, app_nil_r. reflexivity.
  - simpl in H. apply andb_true_iff in H. destruct H as [Hc Hr].
    apply negb_true_iff in Hc. rewrite Hc. rewrite (IH (c :: cur) Hr).
    simpl. rewrite <- app_assoc. reflexivity.
Qed.

Lemma split_two (a b : string) :
  no_dot a -> no_dot b -> split "." (a ++ "." ++ b) = [a; b].
Proof.
  unfold no_dot, split. intros Ha Hb.
  rewrite chars_app. simpl.
  change (chars (String "." b)) with ("."%char :: chars b).
  rewrite (split_chars_first "." (chars a) (chars b) [] Ha).
  rewrite (split_chars_no_sep "." (chars b) [] Hb).
  simpl. rewrite !of_chars_chars. reflexivity.
Qed.


(** ** The plan executor on two-component paths *)

Lemma store_two_component (results : list (string * pyval)) (a b : string)
  (value : pyval) :
  no_dot a -> no_dot b -> all_dicts results ->
  _store_result_in_structure results (a ++ "." ++ b) value
  = Ok (dset a (PDict (dset b value (child_of a results))) results).
Proof.
  intros Ha Hb Hd. unfold _store_result_in_structure, child_of.
  rewrite (split_two a b Ha Hb). cbn [removelast last store_walk].
  destruct (dget a results) as [c|] eqn:Ea.
  - destruct (all_dicts_dget a results c Hd Ea) as (dc & ->). reflexivity.
  - reflexivity.
Qed.

Lemma leaf_at_stored (results : list (string * pyval)) (a b : string)
  (value : pyval) :
  leaf_at a b value
    (dset a (PDict (dset b value (child_of a results))) results).
Proof.
  exists (dset b value (child_of a results)).
  rewrite !dget_dset_same. split; reflexivity.
Qed.

Lemma leaf_at_kept (results : list (string * pyval)) (a b a0 b0 : string)
  (leaf value : pyval) :
  leaf_at a b leaf results ->
  exists leaf',
    leaf_at a b leaf'
      (dset a0 (PDict (dset b0 value (child_of a0 results))) results).
Proof.
  intros (d & Ha & Hb). destruct (string_dec a a0) as [->|Hna].
  - unfold child_of. rewrite Ha. destruct (string_dec b b0) as [->|Hnb].
    + exists value, (dset b0 value d). rewrite !dget_dset_same.
      split; reflexivity.
    + exists leaf, (dset b0 value d).
      rewrite dget_dset_same, (dget_dset_other b0 b value d Hnb).
      split; [reflexivity|exact Hb].
  - exists leaf, d. rewrite (dget_dset_other a0 a _ results Hna).
    split; assumption.
Qed.

Lemma has_leaf_kept (results : list (string * pyval)) (key_path a0 b0 : string)
  (value : pyval) :
  has_leaf key_path results ->
  has_leaf key_path
    (dset a0 (PDict (dset b0 value (child_of a0 results))) results).
Proof.
  intros (a & b & leaf & Ha & Hb & Hk & Hl).
  destruct (leaf_at_kept results a b a0 b0 leaf value Hl) as (leaf' & Hl').
  exists a, b, leaf'. repeat split; assumption.
Qed.

(** X3. An operation whose invocation raises does not stop the executor on a
    two-component path: the error leaf holding the exception text is stored
    at its path, the log and the count of executed tools are unchanged, and
    the local result of the previous operation is kept. *)
Theorem failed_operation_leaves_error_leaf :
  forall (st : ExecState) (tool_exec : ToolExecution) (a b : string)
         (e : exn),
    no_dot a -> no_dot b ->
    expected_result_key tool_exec = a ++ "." ++ b ->
    all_dicts (results st) ->
    run_tool tool_exec (last_result st) (log_now st) = Raise e ->
    exists st' : ExecState,
      execute_step st tool_exec = Ok st'
      /\ leaf_at a b (PDict [("error", PStr (str_of_exn e))]) (results st')
      /\ all_dicts (results st')
      /\ log_now st' = log_now st
      /\ tool_execution_count st' = tool_execution_count st
      /\ last_result st' = last_result st.
Proof.
  intros st tool_exec a b e Ha Hb Hkey Hd Hrun.
  unfold execute_step. rewrite Hrun, Hkey.
  rewrite (store_two_component (results st) a b (error_leaf e) Ha Hb Hd).
  cbn [bind]. eexists. split; [reflexivity|]. cbn [results log_now
    tool_execution_count last_result].
  split; [apply leaf_at_stored|].
  split; [apply all_dicts_dset; [exact Hd|reflexivity]|].
  repeat split; reflexivity.
Qed.

Lemma execute_step_two_component (st : ExecState) (tool_exec : ToolExecution) :
  two_component (expected_result_key tool_exec) ->
  all_dicts (results st) ->
  exists st' : ExecState,
    execute_step st tool_exec = Ok st'
    /\ all_dicts (results st')
    /\ has_leaf (expected_result_key tool_exec) (results st')
    /\ (forall k, has_leaf k (results st) -> has_leaf k (results st')).
Proof.
  intros (a & b & Ha & Hb & Hkey) Hd. unfold execute_step. rewrite Hkey.
  destruct (run_tool tool_exec (last_result st) (log_now st))
    as [[r log']|e].
  - rewrite (store_two_component (results st) a b r Ha Hb Hd).
    eexists. split; [reflexivity|]. cbn [results].
    split; [apply all_dicts_dset; [exact Hd|reflexivity]|].
    split; [exists a, b, r; repeat split; try assumption;
            apply leaf_at_stored|].
    intros k Hk. apply has_leaf_kept. exact Hk.
  - rewrite (store_two_component (results st) a b (error_leaf e) Ha Hb Hd).
    cbn [bind]. eexists. split; [reflexivity|]. cbn [results].
    split; [apply all_dicts_dset; [exact Hd|reflexivity]|].
    split; [exists a, b, (error_leaf e); repeat split; try assumption;
            apply leaf_at_stored|].
    intros k Hk. apply has_leaf_kept. exact Hk.
Qed.

Lemma execute_loop_two_component (tools : list ToolExecution) :
  forall st : ExecState,
    Forall (fun te => two_component (expected_result_key te)) tools ->
    all_dicts (results st) ->
    exists st' : ExecState,
      execute_loop st tools = Ok st'
      /\ all_dicts (results st')
      /\ (forall te, In te tools ->
            has_leaf (expected_result_key te) (results st'))
      /\ (forall k, has_leaf k (results st) -> has_leaf k (results st')).
Proof.
  induction tools as [|te tools IH]; intros st Hall Hd; simpl.
  - exists st. repeat split; [exact Hd|intros ? []|tauto].
  - inversion Hall as [|? ? Hte Hrest]; subst.
    destruct (execute_step_two_component st te Hte Hd)
      as (st1 & Hs & Hd1 & Hl1 & Hk1).
    rewrite Hs. cbn [bind].
    destruct (IH st1 Hrest Hd1) as (st2 & Hs2 & Hd2 & Hl2 & Hk2).
    exists st2. split; [exact Hs2|]. split; [exact Hd2|]. split.
    + intros te' [<-|Hin]; [apply Hk2; exact Hl1|apply Hl2; exact Hin].
    + intros k Hk. apply Hk2, Hk1, Hk.
Qed.

(** X2. On a plan whose target paths all have two dot-free components the
    executor returns whatever the tool names and parameters are: no
    operation failure leaves it, the tree keeps dictionaries at its top
    level and holds a leaf at the path of every operation of the plan. *)
Theorem executor_returns_on_two_component_paths :
  forall (plan : FinancialCalculationPlan) (log : calculation_log),
    Forall (fun te => two_component (expected_result_key te))
      (required_tools plan) ->
    exists (tree : list (string * pyval)) (log' : calculation_log),
      execute_mandatory_calculations plan log = Ok (tree, log')
      /\ all_dicts tree
      /\ forall te, In te (required_tools plan) ->
           has_leaf (expected_result_key te) tree.
Proof.
  intros plan log Hall. unfold execute_mandatory_calculations.
  cbn [clear_calculation_log].
  destruct (execute_loop_two_component (required_tools plan)
              {| results := []; tool_execution_count := 0;
                 last_result := None; log_now := [] |} Hall)
    as (st & Hs & Hd & Hl & _); [constructor|].
  rewrite Hs. cbn [bind]. exists (results st), (log_now st).
  split; [reflexivity|]. split; assumption.
Qed.

(** ** The plans of the builder under the executor *)

Lemma mapM_coerce_floats (l : list Q) :
  mapM coerce_float (map PFloat l) = Ok (map PFloat l).
Proof.
  induction l as [|x l IH]; simpl; [reflexivity|]. rewrite IH. reflexivity.
Qed.

Lemma run_tool_builder_shape (te : ToolExecution) (prev : option pyval)
  (log : calculation_log) :
  builder_shape te ->
  (is_footing te = false /\
   exists r entry,
     run_tool te prev log = Ok (r, (log ++ [entry])%list)
     /\ field "precision" r = Some (PStr "high"))
  \/ (is_footing te = true /\ run_tool te prev log = Raise ValidationError).
Proof.
  intros [l d desc key|x y d desc key|x y z desc key|x l d desc key].
  - left. split; [reflexivity|].
    unfold run_tool. cbn [tool_name parameters]. cbn [String.eqb Ascii.eqb
      Bool.eqb].
    unfold invoke_sum_financial_values, arg_float_list, arg_str_default.
    cbn [dget String.eqb Ascii.eqb Bool.eqb floats].
    rewrite mapM_coerce_floats. cbn [bind].
    unfold sum_financial_values, sum_values.
    rewrite mapM_precise_decimal_floats.
    do 2 eexists. split; reflexivity.
  - left. split; [reflexivity|]. do 2 eexists. split; reflexivity.
  - left. split; [reflexivity|]. do 2 eexists. split; reflexivity.
  - right. split; reflexivity.
Qed.

Ltac two_component_key a b :=
  exists a, b; split; [reflexivity|split; reflexivity].

Lemma plan_tools_builder_shapes (numbers : Buckets) (statement_type : string) :
  forall te, In te (plan_tools numbers statement_type) ->
    builder_shape te /\ two_component (expected_result_key te).
Proof.
  intros te Hte. unfold plan_tools in Hte.
  destruct (_ || _).
  { unfold _create_balance_sheet_tools in Hte. split_tools Hte;
      one_tool Hte; subst te; (split; [constructor|]).
    - two_component_key "aset_lancar" "nilai_perhitungan".
    - two_component_key "aset_tetap" "nilai_perhitungan".
    - two_component_key "total_aset" "nilai_perhitungan".
    - two_component_key "footing_validation" "status".
    - two_component_key "balancing" "status". }
  destruct (String.eqb statement_type "laba_rugi").
  { unfold _create_income_statement_tools in Hte. split_tools Hte;
      one_tool Hte; subst te; (split; [constructor|]).
    - two_component_key "total_pendapatan" "nilai_perhitungan".
    - two_component_key "total_beban" "nilai_perhitungan".
    - two_component_key "laba_bersih" "nilai_perhitungan". }
  destruct (String.eqb statement_type "arus_kas").
  { unfold _create_cash_flow_tools in Hte. split_tools Hte;
      one_tool Hte; subst te; (split; [constructor|]).
    - two_component_key "arus_kas_operasi" "nilai_perhitungan".
    - two_component_key "arus_kas_bersih" "nilai_perhitungan". }
  destruct Hte.
Qed.

(** The plan of a balance sheet with at least three extracted values holds
    exactly one footing validation; every other plan holds none. *)
Lemma plan_tools_footing_count (numbers : Buckets) (statement_type : string) :
  List.length (plan_tools numbers statement_type)
  = (logged_operations (plan_tools numbers statement_type)
     + (if is_balance_sheet statement_type
           && (3 <=? List.length (all_values numbers))%nat
        then 1 else 0))%nat.
Proof.
  unfold plan_tools, is_balance_sheet.
  destruct (_ || _); cbn [andb].
  { unfold _create_balance_sheet_tools.
    destruct (negb (is_empty (current_assets numbers)));
      destruct (negb (is_empty (fixed_assets numbers)));
      destruct (2 <=? List.length (all_values numbers))%nat;
      destruct (3 <=? List.length (all_values numbers))%nat;
      destruct (6 <=? List.length (all_values numbers))%nat;
      reflexivity. }
  destruct (String.eqb statement_type "laba_rugi").
  { unfold _create_income_statement_tools.
    destruct (2 <=? List.length (all_values numbers))%nat;
      destruct (4 <=? List.length (all_values numbers))%nat;
      reflexivity. }
  destruct (String.eqb statement_type "arus_kas").
  { unfold _create_cash_flow_tools.
    destruct (3 <=? List.length (all_values numbers))%nat;
      destruct (6 <=? List.length (all_values numbers))%nat;
      reflexivity. }
  reflexivity.
Qed.

Lemma execute_step_builder_shape (st : ExecState) (te : ToolExecution) :
  builder_shape te ->
  two_component (expected_result_key te) ->
  all_dicts (results st) ->
  exists st' : ExecState,
    execute_step st te = Ok st'
    /\ all_dicts (results st')
    /\ List.length (log_now st')
       = (List.length (log_now st) + if is_footing te then 0 else 1)%nat.
Proof.
  intros Hshape (a & b & Ha & Hb & Hkey) Hd. unfold execute_step.
  rewrite Hkey.
  destruct (run_tool_builder_shape te (last_result st) (log_now st) Hshape)
    as [(Hf & r & entry & Hrun & _)|(Hf & Hrun)]; rewrite Hrun, Hf.
  - rewrite (store_two_component (results st) a b r Ha Hb Hd).
    eexists. split; [reflexivity|]. cbn [results log_now].
    split; [apply all_dicts_dset; [exact Hd|reflexivity]|].
    rewrite length_app. reflexivity.
  - rewrite (store_two_component (results st) a b _ Ha Hb Hd).
    cbn [bind]. eexists. split; [reflexivity|]. cbn [results log_now].
    split; [apply all_dicts_dset; [exact Hd|reflexivity]|]. lia.
Qed.

Lemma execute_loop_builder_shape (tools : list ToolExecution) :
  forall st : ExecState,
    (forall te, In te tools ->
       builder_shape te /\ two_component (expected_result_key te)) ->
    all_dicts (results st) ->
    exists st' : ExecState,
      execute_loop st tools = Ok st'
      /\ all_dicts (results st')
      /\ List.length (log_now st')
         = (List.length (log_now st) + logged_operations tools)%nat.
Proof.
  induction tools as [|te tools IH]; intros st Hall Hd; simpl.
  - exists st. repeat split; [exact Hd|unfold logged_operations; simpl; lia].
  - destruct (Hall te (or_introl eq_refl)) as (Hshape & Htwo).
    destruct (execute_step_builder_shape st te Hshape Htwo Hd)
      as (st1 & Hs & Hd1 & Hlen1).
    rewrite Hs. cbn [bind].
    destruct (IH st1 (fun t Ht => Hall t (or_intror Ht)) Hd1)
      as (st2 & Hs2 & Hd2 & Hlen2).
    exists st2. split; [exact Hs2|]. split; [exact Hd2|].
    rewrite Hlen2, Hlen1. unfold logged_operations. simpl.
    destruct (is_footing te); simpl; lia.
Qed.

(** X4. Executing the plan built for any statement text and type returns:
    the executor does not raise, the tree keeps dictionaries at its top
    level, and the audit log holds one entry for every operation of the plan
    except the footing validation, which fails at invocation because its
    components are bound under the key [components].  The log is therefore
    one entry short of the plan exactly for a balance sheet with at least
    three extracted values. *)
Theorem builder_plan_execution :
  forall (self : ToolOrchestrator) (text statement_type : string)
         (log : calculation_log),
    let plan := create_standardized_calculation_plan self text statement_type in
    let n := List.length (all_values (_extract_financial_values text)) in
    exists (tree : list (string * pyval)) (log' : calculation_log),
      execute_mandatory_calculations plan log = Ok (tree, log')
      /\ all_dicts tree
      /\ List.length log' = logged_operations (required_tools plan)
      /\ total_tool_count plan
         = Z.of_nat (List.length log')
           + (if is_balance_sheet statement_type && (3 <=? n)%nat
              then 1 else 0).
Proof.
  intros self text statement_type log plan n. subst plan n.
  unfold execute_mandatory_calculations, create_standardized_calculation_plan.
  cbn [clear_calculation_log required_tools total_tool_count].
  set (numbers := _extract_financial_values text).
  destruct (execute_loop_builder_shape (plan_tools numbers statement_type)
              {| results := []; tool_execution_count := 0;
                 last_result := None; log_now := [] |}
              (plan_tools_builder_shapes numbers statement_type))
    as (st & Hs & Hd & Hlen); [constructor|].
  rewrite Hs. cbn [bind]. exists (results st), (log_now st).
  split; [reflexivity|]. split; [exact Hd|].
  cbn [log_now List.length] in Hlen. simpl in Hlen.
  split; [exact Hlen|].
  rewrite (plan_tools_footing_count numbers statement_type), Hlen.
  destruct (_ && _); lia.
Qed.

(** ** The replica run *)

Lemma get2_all_dicts (a b : string) (dflt : pyval)
  (tool_results : list (string * pyval)) :
  all_dicts tool_results -> exists v, get2 a b dflt tool_results = Ok v.
Proof.
  intros Hd. unfold get2, dget_default.
  destruct (dget a tool_results) as [c|] eqn:Ea.
  - destruct (all_dicts_dget a tool_results c Hd Ea) as (dc & ->).
    eexists. reflexivity.
  - eexists. reflexivity.
Qed.

Lemma create_standardized_json_structure_returns
  (tool_results : list (string * pyval)) (statement_type : string) :
  all_dicts tool_results ->
  exists data,
    create_standardized_json_structure tool_results statement_type = Ok data.
Proof.
  intros Hd. unfold create_standardized_json_structure.
  destruct (is_balance_sheet statement_type); [|eexists; reflexivity].
  destruct (get2_all_dicts "aset_lancar" "nilai_perhitungan" (PInt 0)
              tool_results Hd) as (v1 & ->).
  destruct (get2_all_dicts "total_aset" "nilai_perhitungan" (PInt 0)
              tool_results Hd) as (v2 & ->).
  destruct (get2_all_dicts "balancing" "status" (PStr "Verified by tool")
              tool_results Hd) as (v3 & ->).
  eexists. reflexivity.
Qed.

(** X5. The replica run of the base agent returns for every statement text
    and type.  It reports the plan's count as its number of tool calls
    whatever the log holds, and its score and confidence are 100 and 95 when
    the usage validation passes and 0 and 10 with one error message when it
    fails.  For a balance sheet with at least three extracted values the
    validation always fails on the count, the log being one entry short. *)
Theorem replica_run_outcome :
  forall (id : string) (self : ToolOrchestrator)
         (text statement_type company : string) (log : calculation_log),
    let plan := create_standardized_calculation_plan self text statement_type in
    let n := List.length (all_values (_extract_financial_values text)) in
    exists (r : AgentResult.t) (log' : calculation_log),
      base_process_statement id self text statement_type company log
      = Ok (r, log')
      /\ AgentResult.tool_calls_made r = total_tool_count plan
      /\ List.length log' = logged_operations (required_tools plan)
      /\ ((AgentResult.validation_score r = 100%Q
           /\ AgentResult.confidence r = 95%Q /\ AgentResult.errors r = [])
          \/ (AgentResult.validation_score r = 0%Q
              /\ AgentResult.confidence r = 10%Q
              /\ exists msg, AgentResult.errors r = [msg]))
      /\ (is_balance_sheet statement_type && (3 <=? n)%nat = true ->
          AgentResult.confidence r = 10%Q
          /\ AgentResult.errors r
             = ["Expected " ++ string_of_Z (total_tool_count plan)
                ++ " tools, got "
                ++ string_of_Z (total_tool_count plan - 1)]).
Proof.
  intros id self text statement_type company log plan n.
  destruct (builder_plan_execution self text statement_type log)
    as (tree & log' & Hexec & Hd & Hlen & Hcount).
  fold plan in Hexec, Hlen, Hcount. fold n in Hcount.
  destruct (create_standardized_json_structure_returns tree statement_type Hd)
    as (data & Hjson).
  unfold base_process_statement. fold plan.
  rewrite Hexec. cbn [bind]. rewrite Hjson. cbn [bind].
  destruct (validate_tool_usage data (total_tool_count plan) log')
    as [tool_valid validation_message] eqn:Ev.
  eexists. eexists. split; [reflexivity|].
  cbn [AgentResult.tool_calls_made AgentResult.validation_score
       AgentResult.confidence AgentResult.errors].
  split; [reflexivity|]. split; [exact Hlen|]. split.
  - destruct tool_valid.
    + left. repeat split; reflexivity.
    + right. repeat split; try reflexivity. eexists. reflexivity.
  - intros Hbs. rewrite Hbs in Hcount.
    unfold validate_tool_usage, get_calculation_log in Ev.
    assert (Hne : (Z.of_nat (List.length log') =? total_tool_count plan)
                  = false) by (apply Z.eqb_neq; lia).
    rewrite Hne in Ev. cbn [negb] in Ev. injection Ev as <- <-.
    split; [reflexivity|].
    replace (total_tool_count plan - 1) with (Z.of_nat (List.length log'))
      by lia.
    reflexivity.
Qed.

(** ** Identical replicas *)

Lemma base_process_statement_rename (id id0 : string)
  (self self0 : ToolOrchestrator) (text statement_type company : string)
  (log log0 : calculation_log) :
  base_process_statement id self text statement_type company log
  = (p <- base_process_statement id0 self0 text statement_type company log0 ;;
     Ok (rename_result id (fst p), snd p)).
Proof.
  unfold base_process_statement, execute_mandatory_calculations,
    create_standardized_calculation_plan.
  cbn [clear_calculation_log required_tools total_tool_count].
  destruct (execute_loop _ _) as [st|e]; cbn [bind]; [|reflexivity].
  destruct (create_standardized_json_structure _ _) as [data|e];
    cbn [bind]; [|reflexivity].
  destruct (validate_tool_usage _ _ _) as [tool_valid validation_message].
  reflexivity.
Qed.

Lemma tolerance_of_nonneg (rel floor base_value : Q) :
  (0 <= tolerance_of rel floor base_value)%Q.
Proof.
  unfold tolerance_of, py_max.
  destruct (Qlt_bool _ _) eqn:E; [|apply Qabs_nonneg].
  apply Qlt_bool_iff in E. apply Qle_trans with (Qabs (base_value * rel)).
  - apply Qabs_nonneg.
  - apply Qlt_le_weak. exact E.
Qed.

Lemma disagrees_same_value (rel floor v : Q) :
  disagrees v (tolerance_of rel floor v) v = false.
Proof.
  unfold disagrees. apply Qlt_bool_false_iff.
  assert (Hz : (Qabs (v - v) == 0)%Q).
  { assert (H : (v - v == 0)%Q) by ring. rewrite H. reflexivity. }
  rewrite Hz. apply tolerance_of_nonneg.
Qed.

Lemma values_for_same_figures (key : string) (figures : list (string * Q))
  (key_figures : list (string * list (string * Q))) :
  (forall x, In x key_figures -> snd x = figures) ->
  forall a v, In (a, v) (values_for key key_figures) ->
    dget key figures = Some v.
Proof.
  unfold values_for. intros Hsame a v Hin.
  apply in_flat_map in Hin. destruct Hin as (x & Hx & Hin).
  rewrite (Hsame x Hx) in Hin.
  destruct (dget key figures) as [w|]; [|destruct Hin].
  destruct Hin as [Heq|[]]. injection Heq as _ ->. reflexivity.
Qed.

Lemma disagreeing_of_same_value (rel floor base_value : Q)
  (others : list (string * Q)) :
  (forall a v, In (a, v) others -> v = base_value) ->
  disagreeing_of base_value (tolerance_of rel floor base_value) others = [].
Proof.
  unfold disagreeing_of. induction others as [|[a v] l IH]; intros Hsame;
    [reflexivity|].
  simpl. rewrite (Hsame a v (or_introl eq_refl)).
  rewrite disagrees_same_value. apply IH.
  intros a' v' Hin. apply (Hsame a' v'). right. exact Hin.
Qed.

Lemma compare_key_same_figures (rel floor : Q) (with_tolerance : bool)
  (figures : list (string * Q))
  (key_figures : list (string * list (string * Q)))
  (failing : list string) (discs : list pyval) (key : string) :
  (forall x, In x key_figures -> snd x = figures) ->
  compare_key rel floor with_tolerance key_figures (failing, discs) key
  = (failing, discs).
Proof.
  intros Hsame. unfold compare_key.
  pose proof (values_for_same_figures key figures key_figures Hsame) as Hv.
  destruct (values_for key key_figures) as [|[a0 base_value] [|o others]];
    try reflexivity.
  assert (Hb : dget key figures = Some base_value)
    by (apply (Hv a0); left; reflexivity).
  rewrite disagreeing_of_same_value; [reflexivity|].
  intros a v Hin.
  assert (Hvv : dget key figures = Some v) by (apply (Hv a); right; exact Hin).
  congruence.
Qed.

Lemma fold_compare_key_same_figures (rel floor : Q) (with_tolerance : bool)
  (figures : list (string * Q))
  (key_figures : list (string * list (string * Q))) (keys : list string) :
  (forall x, In x key_figures -> snd x = figures) ->
  fold_left (compare_key rel floor with_tolerance key_figures) keys ([], [])
  = ([], []).
Proof.
  intros Hsame. induction keys as [|k keys IH]; simpl; [reflexivity|].
  rewrite (compare_key_same_figures rel floor with_tolerance figures
             key_figures [] [] k Hsame).
  exact IH.
Qed.

Lemma dget_of_member {V : Type} (d : list (string * V)) (k : string) :
  In k (map fst d) -> exists v, dget k d = Some v /\ In (k, v) d.
Proof.
  induction d as [|[k' v'] d IH]; simpl; [intros []|].
  intros Hin. destruct (String.eqb k k') eqn:E.
  - apply String.eqb_eq in E. subst k'. exists v'. split; [reflexivity|].
    left. reflexivity.
  - destruct Hin as [Heq|Hin]; [subst; rewrite String.eqb_refl in E;
                                discriminate|].
    destruct (IH Hin) as (v & Hv & Hin'). exists v. split; [exact Hv|].
    right. exact Hin'.
Qed.

(** Replicas that all carry the same tree pass the consensus check. *)
Lemma validate_consensus_same_trees (rel floor : Q) (with_tolerance : bool)
  (agent_results : list (string * AgentResult.t)) (data : pyval) :
  agent_results <> [] ->
  (forall x, In x agent_results ->
     AgentResult.extracted_data (snd x) = data) ->
  exists c : ConsensusResult,
    validate_consensus_with rel floor with_tolerance agent_results = Ok c
    /\ is_consensus c = true /\ agreed_data c = data
    /\ discrepancies c = [] /\ failing_agents c = [].
Proof.
  intros Hne Hsame. unfold validate_consensus_with.
  set (key_figures := map _ agent_results).
  assert (Hkf : forall x, In x key_figures ->
                  snd x = _extract_key_figures data).
  { intros x Hx. unfold key_figures in Hx. apply in_map_iff in Hx.
    destruct Hx as (ar & <- & Har). simpl. rewrite (Hsame ar Har).
    reflexivity. }
  rewrite (fold_compare_key_same_figures rel floor with_tolerance
             (_extract_key_figures data) key_figures
             (all_keys_of key_figures) Hkf).
  cbn [List.length Nat.eqb andb].
  destruct agent_results as [|first rest]; [contradiction|].
  destruct (max_by_confidence_first rest first) as (pre & post & Hdec & _).
  set (best := max_by_confidence first rest) in *.
  assert (Hin : In (fst best) (map fst (first :: rest))).
  { rewrite Hdec, map_app. apply in_or_app. right. left. reflexivity. }
  destruct (dget_of_member (first :: rest) (fst best) Hin) as (r & Hr & Hrin).
  rewrite Hr. cbn [bind]. eexists. split; [reflexivity|].
  cbn [is_consensus agreed_data discrepancies failing_agents].
  repeat split. exact (Hsame (fst best, r) Hrin).
Qed.


Lemma dset_nonempty {V : Type} (k : string) (v : V) (d : list (string * V)) :
  dset k v d <> [].
Proof.
  destruct d as [|[k' v'] d]; simpl; [discriminate|].
  destruct (String.eqb k k'); discriminate.
Qed.

Lemma dset_all {V : Type} (P : string * V -> Prop) (k : string) (v : V)
  (d : list (string * V)) :
  (forall x, In x d -> P x) -> (forall k', P (k', v)) ->
  forall x, In x (dset k v d) -> P x.
Proof.
  intros Hd Hv. induction d as [|[k' v'] d IH]; simpl.
  - intros x [<-|[]]. apply Hv.
  - destruct (String.eqb k k').
    + intros x [<-|Hin]; [apply Hv|apply Hd; right; exact Hin].
    + intros x [<-|Hin]; [apply Hd; left; reflexivity|].
      apply IH; [|exact Hin]. intros y Hy. apply Hd. right. exact Hy.
Qed.

Lemma base_process_statement_any_log (id : string) (self : ToolOrchestrator)
  (text statement_type company : string) (log : calculation_log) :
  base_process_statement id self text statement_type company log
  = base_process_statement id self text statement_type company [].
Proof.
  unfold base_process_statement, execute_mandatory_calculations. reflexivity.
Qed.

Section IdenticalReplicas.

Variables text statement_type company : string.
Variable r0 : AgentResult.t.
Variable log1 : calculation_log.

Hypothesis base_run :
  forall log, base_process_statement "" {| calculation_plan := None |}
                text statement_type company log = Ok (r0, log1).

Lemma new_agent_run (id : string) (log : calculation_log) :
  process_statement (new_agent id) text statement_type company log
  = Ok (rename_result id r0, log1).
Proof.
  unfold new_agent. cbn [process_statement].
  rewrite (base_process_statement_rename id "" _ {| calculation_plan := None |}
             text statement_type company log log).
  rewrite base_run. reflexivity.
Qed.

Lemma run_agents_identical (ids : list string) :
  forall (acc : list (string * AgentResult.t)) (log : calculation_log),
    (forall x, In x acc ->
       AgentResult.extracted_data (snd x) = AgentResult.extracted_data r0) ->
    exists (agent_results : list (string * AgentResult.t))
           (log' : calculation_log),
      run_agents (map new_agent ids) text statement_type company
        (AgentResult.tool_calls_made r0) acc true log
      = Ok (agent_results, true, log')
      /\ (forall x, In x agent_results ->
            AgentResult.extracted_data (snd x)
            = AgentResult.extracted_data r0)
      /\ (ids <> [] -> agent_results <> [] /\ log' = log1).
Proof.
  induction ids as [|id ids IH]; intros acc log Hacc; cbn [map run_agents].
  - exists acc, log. split; [reflexivity|]. split; [exact Hacc|].
    intros H. contradiction.
  - rewrite new_agent_run. cbn [bind].
    cbn [rename_result AgentResult.tool_calls_made].
    rewrite Z.eqb_refl. cbn [negb].
    destruct (IH (dset id (rename_result id r0) acc) log1)
      as (ar & log' & Hrun & Hall & Hne).
    { apply dset_all; [exact Hacc|reflexivity]. }
    cbn [agent_id new_agent]. exists ar, log'.
    split; [exact Hrun|]. split; [exact Hall|].
    intros _. destruct ids as [|id' ids'].
    + simpl in Hrun. injection Hrun as <- <-.
      split; [apply dset_nonempty|reflexivity].
    + apply Hne. discriminate.
Qed.

End IdenticalReplicas.

(** X7. Any non-empty list of base agents reaches consensus in the first
    attempt: for every statement text and type, every tolerance profile,
    every iteration order of the figure names and every retry bound that is
    not negative, the retry loop returns the tree of the replica run with an
    empty attempt record. *)
Theorem identical_replicas_agree_at_once :
  forall (self : BaseTripleAgentSystem) (rel floor : Q)
         (with_tolerance : bool) (ids : list string)
         (text statement_type company : string) (log : calculation_log),
    _validate_consensus self = validate_consensus_with rel floor with_tolerance ->
    0 <= max_retries self ->
    ids <> [] ->
    exists (r : AgentResult.t) (log' : calculation_log),
      (forall log0,
         base_process_statement "" {| calculation_plan := None |}
           text statement_type company log0 = Ok (r, log'))
      /\ _process_with_consensus self (map new_agent ids) text statement_type
           company log
         = Ok (AgentResult.extracted_data r, [], log').
Proof.
  intros self rel floor with_tolerance ids text statement_type company log
    Hval Hmax Hids.
  destruct (replica_run_outcome "" {| calculation_plan := None |} text
              statement_type company [])
    as (r0 & log1 & Hrun0 & Hcalls & _).
  assert (Hbase : forall log0,
            base_process_statement "" {| calculation_plan := None |}
              text statement_type company log0 = Ok (r0, log1)).
  { intros log0. rewrite base_process_statement_any_log. exact Hrun0. }
  exists r0, log1. split; [exact Hbase|].
  unfold _process_with_consensus.
  destruct (Z.to_nat (max_retries self + 1)) as [|n'] eqn:En; [lia|].
  destruct ids as [|id ids']; [contradiction|].
  cbn [attempt_loop map].
  change (new_agent id :: map new_agent ids')
    with (map new_agent (id :: ids')).
  assert (Hexp : total_tool_count
                   (create_standardized_calculation_plan
                      (tool_orchestrator (new_agent id)) text statement_type)
                 = AgentResult.tool_calls_made r0).
  { rewrite Hcalls. reflexivity. }
  rewrite Hexp.
  destruct (run_agents_identical text statement_type company r0 log1 Hbase
              (id :: ids') [] log)
    as (ar & log' & Hrun & Hall & Hne); [intros ? []|].
  rewrite Hrun. cbn [bind negb].
  destruct (Hne ltac:(discriminate)) as (Har & ->).
  rewrite Hval.
  destruct (validate_consensus_same_trees rel floor with_tolerance ar
              (AgentResult.extracted_data r0) Har Hall)
    as (c & Hc & Hic & Hdata & _).
  rewrite Hc. cbn [bind]. rewrite Hic, Hdata. reflexivity.
Qed.

(** ** The arithmetic engine: outcomes and the audit log *)









(** X11. [validate_calculation_result] accepts a result of [sum_values] or
    [subtract_values] exactly when it is tagged "high", and rejects every
    result of the balance check, of the percentage and of the footing
    validation, which carry no [result] key. *)
Theorem validate_calculation_result_scope :
  (forall values d log,
     validate_calculation_result (fst (sum_values values d log)) = true <->
     field "precision" (fst (sum_values values d log)) = Some (PStr "high"))
  /\ (forall x y d log,
        validate_calculation_result (fst (subtract_values x y d log)) = true
        <-> field "precision" (fst (subtract_values x y d log))
            = Some (PStr "high"))
  /\ (forall A L E log,
        validate_calculation_result (fst (verify_balance_equation A L E log))
        = false)
  /\ (forall part total log,
        validate_calculation_result (fst (calculate_percentage part total log))
        = false)
  /\ (forall reported components d log,
        validate_calculation_result
          (fst (validate_footing_calculation reported components d log))
        = false).
Proof.
  split; [|split; [|split; [|split]]].
  - intros values d log. unfold sum_values.
    destruct (mapM precise_decimal _) as [ds|e]; cbn [fst]; split;
      intros H; try reflexivity; discriminate.
  - intros x y d log. unfold subtract_values.
    destruct (precise_decimal x) as [m|e]; cbn [bind];
      [destruct (precise_decimal y) as [s|e]; cbn [bind]|];
      cbn [fst]; split; intros H; try reflexivity; discriminate.
  - intros A L E log. unfold verify_balance_equation.
    destruct (precise_decimal A) as [a|e]; cbn [bind];
      [destruct (precise_decimal L) as [l|e]; cbn [bind];
       [destruct (precise_decimal E) as [q|e]; cbn [bind]|]|];
      reflexivity.
  - intros part total log. unfold calculate_percentage.
    destruct (precise_decimal part) as [p|e]; cbn [bind];
      [destruct (precise_decimal total) as [t|e]; cbn [bind];
       [destruct (Qeq_bool t 0)|]|];
      reflexivity.
  - intros reported components d log. unfold validate_footing_calculation.
    destruct (sum_values _ _ _) as [sr l1].
    destruct (subtract_values _ _ _ _) as [sb l2]. reflexivity.
Qed.

(** X12. The audit log is append-only under the engine: every operation
    returns the log it was given followed by the entries it adds, at most
    one for sum, subtraction, balance check and percentage, between one and
    three for the footing validation; only [clear_calculation_log] empties
    it. *)
Theorem engine_log_append_only :
  forall log : calculation_log,
    (forall values d, exists extra,
        snd (sum_values values d log) = (log ++ extra)%list
        /\ (List.length extra <= 1)%nat)
    /\ (forall x y d, exists extra,
          snd (subtract_values x y d log) = (log ++ extra)%list
          /\ (List.length extra <= 1)%nat)
    /\ (forall A L E, exists extra,
          snd (verify_balance_equation A L E log) = (log ++ extra)%list
          /\ (List.length extra <= 1)%nat)
    /\ (forall part total, exists extra,
          snd (calculate_percentage part total log) = (log ++ extra)%list
          /\ (List.length extra <= 1)%nat)
    /\ (forall reported components d, exists extra,
          snd (validate_footing_calculation reported components d log)
          = (log ++ extra)%list
          /\ (1 <= List.length extra <= 3)%nat)
    /\ snd (clear_calculation_log log) = [].
Proof.
  intros log.
  assert (Hsum : forall l values d, exists extra,
            snd (sum_values values d l) = (l ++ extra)%list
            /\ (List.length extra <= 1)%nat).
  { intros l values d. unfold sum_values.
    destruct (mapM precise_decimal _) as [ds|e]; cbn [snd].
    - eexists. split; [reflexivity|]. simpl. lia.
    - exists []. split; [rewrite app_nil_r; reflexivity|]. simpl. lia. }
  assert (Hsub : forall l x y d, exists extra,
            snd (subtract_values x y d l) = (l ++ extra)%list
            /\ (List.length extra <= 1)%nat).
  { intros l x y d. unfold subtract_values.
    destruct (precise_decimal x) as [m|e]; cbn [bind];
      [destruct (precise_decimal y) as [s|e]; cbn [bind]|]; cbn [snd];
      try (eexists; split; [reflexivity|]; simpl; lia);
      exists []; (split; [rewrite app_nil_r; reflexivity|]); simpl; lia. }
  split; [apply Hsum|]. split; [apply Hsub|]. split; [|split; [|split]].
  - intros A L E. unfold verify_balance_equation.
    destruct (precise_decimal A) as [a|e]; cbn [bind];
      [destruct (precise_decimal L) as [l|e]; cbn [bind];
       [destruct (precise_decimal E) as [q|e]; cbn [bind]|]|]; cbn [snd];
      try (eexists; split; [reflexivity|]; simpl; lia);
      exists []; (split; [rewrite app_nil_r; reflexivity|]); simpl; lia.
  - intros part total. unfold calculate_percentage.
    destruct (precise_decimal part) as [p|e]; cbn [bind];
      [destruct (precise_decimal total) as [t|e]; cbn [bind];
       [destruct (Qeq_bool t 0)|]|]; cbn [snd];
      try (eexists; split; [reflexivity|]; simpl; lia);
      exists []; (split; [rewrite app_nil_r; reflexivity|]); simpl; lia.
  - intros reported components d. unfold validate_footing_calculation.
    destruct (Hsum log components ("Components for " ++ d))
      as (e1 & H1 & L1).
    destruct (sum_values components ("Components for " ++ d) log)
      as [sr l1]. cbn [snd] in H1. subst l1.
    destruct (Hsub (log ++ e1)%list (PFloat (field_float "result" sr))
                reported ("Difference for " ++ d)) as (e2 & H2 & L2).
    destruct (subtract_values _ _ _ _) as [sb l2]. cbn [snd] in H2. subst l2.
    cbn [snd]. unfold log_calculation. eexists.
    split; [rewrite <- !app_assoc; reflexivity|].
    rewrite !length_app. simpl. lia.
  - reflexivity.
Qed.

(** ** The key figures of the trees the pipeline produces *)

Lemma dict_at_kept (results : list (string * pyval)) (a b a0 b0 : string)
  (kvs : list (string * pyval)) :
  dict_at a b results ->
  dict_at a b
    (dset a0 (PDict (dset b0 (PDict kvs) (child_of a0 results))) results).
Proof.
  intros (leaf & d & Ha & Hb). destruct (string_dec a a0) as [->|Hna].
  - unfold child_of. rewrite Ha. destruct (string_dec b b0) as [->|Hnb].
    + exists kvs, (dset b0 (PDict kvs) d). rewrite !dget_dset_same.
      split; reflexivity.
    + exists leaf, (dset b0 (PDict kvs) d).
      rewrite dget_dset_same, (dget_dset_other b0 b _ d Hnb).
      split; [reflexivity|exact Hb].
  - exists leaf, d. rewrite (dget_dset_other a0 a _ results Hna).
    split; assumption.
Qed.

Lemma two_component_unique (a b a0 b0 : string) :
  no_dot a -> no_dot b -> no_dot a0 -> no_dot b0 ->
  (a ++ "." ++ b = a0 ++ "." ++ b0)%string -> a = a0 /\ b = b0.
Proof.
  intros Ha Hb Ha0 Hb0 Heq.
  pose proof (split_two a b Ha Hb) as H1.
  pose proof (split_two a0 b0 Ha0 Hb0) as H2.
  rewrite Heq, H2 in H1. injection H1 as -> ->. split; reflexivity.
Qed.

Lemma execute_step_builder_store (st : ExecState) (te : ToolExecution)
  (a0 b0 : string) :
  builder_shape te ->
  no_dot a0 -> no_dot b0 ->
  expected_result_key te = (a0 ++ "." ++ b0)%string ->
  all_dicts (results st) ->
  exists (st' : ExecState) (kvs : list (string * pyval)),
    execute_step st te = Ok st'
    /\ results st'
       = dset a0 (PDict (dset b0 (PDict kvs) (child_of a0 (results st))))
           (results st).
Proof.
  intros Hshape Ha Hb Hkey Hd. unfold execute_step. rewrite Hkey.
  destruct (run_tool_builder_shape te (last_result st) (log_now st) Hshape)
    as [(_ & r & entry & Hrun & Hfield)|(_ & Hrun)]; rewrite Hrun.
  - destruct r as [| | | | | |kvs]; try discriminate Hfield.
    rewrite (store_two_component (results st) a0 b0 _ Ha Hb Hd).
    eexists. exists kvs. split; reflexivity.
  - rewrite (store_two_component (results st) a0 b0 _ Ha Hb Hd).
    cbn [bind]. eexists. eexists. split; reflexivity.
Qed.

Lemma execute_loop_builder_leaves (tools : list ToolExecution) :
  forall st : ExecState,
    (forall te, In te tools ->
       builder_shape te /\ two_component (expected_result_key te)) ->
    all_dicts (results st) ->
    exists st' : ExecState,
      execute_loop st tools = Ok st'
      /\ all_dicts (results st')
      /\ (forall a b, dict_at a b (results st) -> dict_at a b (results st'))
      /\ (forall te a b,
            In te tools -> no_dot a -> no_dot b ->
            expected_result_key te = (a ++ "." ++ b)%string ->
            dict_at a b (results st')).
Proof.
  induction tools as [|te tools IH]; intros st Hall Hd; simpl.
  - exists st. split; [reflexivity|]. split; [exact Hd|].
    split; [tauto|intros ? ? ? []].
  - destruct (Hall te (or_introl eq_refl)) as (Hshape & a0 & b0 & Ha0 & Hb0
                                                & Hkey).
    destruct (execute_step_builder_store st te a0 b0 Hshape Ha0 Hb0 Hkey Hd)
      as (st1 & kvs & Hs & Hres).
    assert (Hd1 : all_dicts (results st1)).
    { rewrite Hres. apply all_dicts_dset; [exact Hd|reflexivity]. }
    rewrite Hs. cbn [bind].
    destruct (IH st1 (fun t Ht => Hall t (or_intror Ht)) Hd1)
      as (st2 & Hs2 & Hd2 & Hkeep & Hnew).
    exists st2. split; [exact Hs2|]. split; [exact Hd2|]. split.
    + intros a b Hab. apply Hkeep. rewrite Hres. apply dict_at_kept.
      exact Hab.
    + intros te' a b [<-|Hin] Ha Hb Hk.
      * rewrite Hkey in Hk.
        destruct (two_component_unique a0 b0 a b Ha0 Hb0 Ha Hb Hk)
          as [<- <-].
        apply Hkeep. rewrite Hres. exists kvs. apply leaf_at_stored.
      * apply (Hnew te' a b Hin Ha Hb Hk).
Qed.

Lemma current_assets_nonempty (text : string) :
  is_empty (all_values (_extract_financial_values text)) = false ->
  is_empty (current_assets (_extract_financial_values text)) = false.
Proof.
  unfold _extract_financial_values. cbn [all_values current_assets].
  set (clean_numbers := clean_numbers_of _).
  destruct clean_numbers as [|x l] eqn:E; [discriminate|]. intros _.
  destruct (3 <? List.length (x :: l))%nat eqn:E3; [|reflexivity].
  apply Nat.ltb_lt in E3.
  assert (Hdiv : (1 <= List.length (x :: l) / 3)%nat).
  { apply Nat.div_le_lower_bound; lia. }
  destruct (List.length (x :: l) / 3)%nat; [lia|reflexivity].
Qed.

Lemma key_figures_of_dict_asset (kvs : list (string * pyval))
  (al2 ta1 ta2 bs : pyval) :
  _extract_key_figures
    (PDict
      [("laporan_posisi_keuangan", PDict
         [("aset", PDict
            [("aset_lancar", PDict
               [("nama_akun", PStr "Jumlah Aset Lancar");
                ("nilai_tercatat", PDict kvs);
                ("nilai_perhitungan", al2);
                ("selisih", PInt 0);
                ("status", PStr "OK");
                ("source", PStr "calculation_tool")]);
             ("total_aset", PDict
               [("nama_akun", PStr "Total Aset");
                ("nilai_tercatat", ta1);
                ("nilai_perhitungan", ta2);
                ("selisih", PInt 0);
                ("status", PStr "OK");
                ("source", PStr "calculation_tool")])]);
          ("balancing", PDict
            [("status", bs);
             ("source", PStr "balance_equation_tool")])])])
  = [].
Proof. reflexivity. Qed.

(** The key figures of the tree of a replica run. *)
Lemma replica_key_figures :
  forall (id : string) (self : ToolOrchestrator)
         (text statement_type company : string) (log : calculation_log),
    exists (r : AgentResult.t) (log' : calculation_log),
      base_process_statement id self text statement_type company log
      = Ok (r, log')
      /\ _extract_key_figures (AgentResult.extracted_data r)
         = if is_balance_sheet statement_type
              && is_empty (all_values (_extract_financial_values text))
           then [("aset_lancar", 0%Q); ("total_aset", 0%Q)]
           else [].
Proof.
  intros id self text statement_type company log.
  unfold base_process_statement, execute_mandatory_calculations,
    create_standardized_calculation_plan.
  cbn [clear_calculation_log required_tools total_tool_count].
  set (numbers := _extract_financial_values text).
  destruct (execute_loop_builder_leaves (plan_tools numbers statement_type)
              {| results := []; tool_execution_count := 0;
                 last_result := None; log_now := [] |}
              (plan_tools_builder_shapes numbers statement_type))
    as (st & Hs & Hd & _ & Hnew); [constructor|].
  rewrite Hs. cbn [bind].
  unfold create_standardized_json_structure.
  destruct (is_balance_sheet statement_type) eqn:Ebs; cbn [andb].
  - destruct (is_empty (all_values numbers)) eqn:En.
    + assert (Hplan : plan_tools numbers statement_type = []).
      { unfold plan_tools. fold (is_balance_sheet statement_type).
        rewrite Ebs. unfold _create_balance_sheet_tools.
        subst numbers. unfold _extract_financial_values in *.
        cbn [all_values current_assets fixed_assets] in *.
        destruct (clean_numbers_of _); [reflexivity|discriminate]. }
      rewrite Hplan in Hs. cbn [execute_loop] in Hs. injection Hs as <-.
      cbn [results get2 dget_default dget bind].
      destruct (validate_tool_usage _ _ _) as [tool_valid msg].
      eexists. eexists. split; [reflexivity|]. reflexivity.
    + assert (Hin : In {| tool_name := "sum_financial_values";
                          parameters :=
                            [("values",
                              floats (firstn 5 (current_assets numbers)));
                             ("description",
                              PStr "Calculate total current assets")];
                          description := "Sum of current assets";
                          expected_result_key :=
                            "aset_lancar.nilai_perhitungan" |}
                       (plan_tools numbers statement_type)).
      { unfold plan_tools. fold (is_balance_sheet statement_type).
        rewrite Ebs. unfold _create_balance_sheet_tools.
        subst numbers. rewrite (current_assets_nonempty text En).
        left. reflexivity. }
      destruct (Hnew _ "aset_lancar" "nilai_perhitungan" Hin
                  eq_refl eq_refl eq_refl) as (kvs & d & Ha & Hb).
      assert (Hal : get2 "aset_lancar" "nilai_perhitungan" (PInt 0)
                      (results st) = Ok (PDict kvs)).
      { unfold get2, dget_default. rewrite Ha, Hb. reflexivity. }
      rewrite Hal. cbn [bind].
      destruct (get2_all_dicts "total_aset" "nilai_perhitungan" (PInt 0)
                  (results st) Hd) as (ta & ->).
      destruct (get2_all_dicts "balancing" "status" (PStr "Verified by tool")
                  (results st) Hd) as (bs & ->).
      cbn [bind].
      destruct (validate_tool_usage _ _ _) as [tool_valid msg].
      eexists. eexists. split; [reflexivity|].
      cbn [AgentResult.extracted_data].
      apply key_figures_of_dict_asset.
  - cbn [bind].
    destruct (validate_tool_usage _ _ _) as [tool_valid msg].
    eexists. eexists. split; [reflexivity|]. reflexivity.
Qed.

(** X14. The key figures that the consensus check compares never hold a
    computed amount.  For the tree of a replica run they are empty, the
    stored sum of current assets being a dictionary that [float] refuses;
    only for a balance sheet whose text yields no value do they hold the two
    asset figures, both with the default 0. *)
Theorem pipeline_key_figures :
  forall (id : string) (self : ToolOrchestrator)
         (text statement_type company : string) (log : calculation_log),
    exists (r : AgentResult.t) (log' : calculation_log),
      base_process_statement id self text statement_type company log
      = Ok (r, log')
      /\ _extract_key_figures (AgentResult.extracted_data r)
         = if is_balance_sheet statement_type
              && is_empty (all_values (_extract_financial_values text))
           then [("aset_lancar", 0%Q); ("total_aset", 0%Q)]
           else [].
Proof.
  intros id self text statement_type company log.
  exact (replica_key_figures id self text statement_type company log).
Qed.

(** ** The consensus check on the trees the pipeline produces *)

Lemma dget_Some_In {V : Type} (k : string) (d : list (string * V)) (v : V) :
  dget k d = Some v -> In (k, v) d.
Proof.
  induction d as [|[k' v'] d IH]; simpl; [discriminate|].
  destruct (String.eqb k k') eqn:E.
  - apply String.eqb_eq in E. subst k'. intros H. injection H as <-.
    left. reflexivity.
  - intros H. right. apply IH. exact H.
Qed.

Lemma values_for_zero (key : string)
  (key_figures : list (string * list (string * Q))) :
  (forall x, In x key_figures ->
     Forall (fun kv => snd kv = 0%Q) (snd x)) ->
  forall a v, In (a, v) (values_for key key_figures) -> v = 0%Q.
Proof.
  unfold values_for. intros Hz a v Hin.
  apply in_flat_map in Hin. destruct Hin as (x & Hx & Hin).
  destruct (dget key (snd x)) as [w|] eqn:E; [|destruct Hin].
  destruct Hin as [Heq|[]]. injection Heq as _ <-.
  apply dget_Some_In in E. specialize (Hz x Hx).
  rewrite Forall_forall in Hz. exact (Hz (key, w) E).
Qed.

Lemma compare_key_zero (rel floor : Q) (with_tolerance : bool)
  (key_figures : list (string * list (string * Q)))
  (failing : list string) (discs : list pyval) (key : string) :
  (forall x, In x key_figures ->
     Forall (fun kv => snd kv = 0%Q) (snd x)) ->
  compare_key rel floor with_tolerance key_figures (failing, discs) key
  = (failing, discs).
Proof.
  intros Hz. unfold compare_key.
  pose proof (values_for_zero key key_figures Hz) as Hv.
  destruct (values_for key key_figures) as [|[a0 base_value] [|o others]];
    try reflexivity.
  assert (Hb : base_value = 0%Q) by (apply (Hv a0); left; reflexivity).
  rewrite disagreeing_of_same_value; [reflexivity|].
  intros a v Hin. rewrite Hb. apply (Hv a). right. exact Hin.
Qed.

Lemma fold_compare_key_zero (rel floor : Q) (with_tolerance : bool)
  (key_figures : list (string * list (string * Q))) (keys : list string) :
  (forall x, In x key_figures ->
     Forall (fun kv => snd kv = 0%Q) (snd x)) ->
  fold_left (compare_key rel floor with_tolerance key_figures) keys ([], [])
  = ([], []).
Proof.
  intros Hz. induction keys as [|k keys IH]; simpl; [reflexivity|].
  rewrite (compare_key_zero rel floor with_tolerance key_figures [] [] k Hz).
  exact IH.
Qed.

(** Replicas whose key figures hold only zeros pass the consensus check. *)
Lemma validate_consensus_zero_figures (rel floor : Q) (with_tolerance : bool)
  (agent_results : list (string * AgentResult.t)) :
  agent_results <> [] ->
  zero_figures agent_results ->
  exists c : ConsensusResult,
    validate_consensus_with rel floor with_tolerance agent_results = Ok c
    /\ is_consensus c = true
    /\ discrepancies c = [] /\ failing_agents c = []
    /\ exists x, In x agent_results
         /\ agreed_data c = AgentResult.extracted_data (snd x).
Proof.
  intros Hne Hzero. unfold validate_consensus_with.
  set (key_figures := map _ agent_results).
  assert (Hkf : forall x, In x key_figures ->
                  Forall (fun kv => snd kv = 0%Q) (snd x)).
  { intros x Hx. unfold key_figures in Hx. apply in_map_iff in Hx.
    destruct Hx as (ar & <- & Har). cbn [snd]. exact (Hzero ar Har). }
  rewrite (fold_compare_key_zero rel floor with_tolerance key_figures
             (all_keys_of key_figures) Hkf).
  cbn [List.length Nat.eqb andb].
  destruct agent_results as [|first rest]; [contradiction|].
  destruct (max_by_confidence_first rest first) as (pre & post & Hdec & _).
  set (best := max_by_confidence first rest) in *.
  assert (Hin : In (fst best) (map fst (first :: rest))).
  { rewrite Hdec, map_app. apply in_or_app. right. left. reflexivity. }
  destruct (dget_of_member (first :: rest) (fst best) Hin) as (r & Hr & Hrin).
  rewrite Hr. cbn [bind]. eexists. split; [reflexivity|].
  cbn [is_consensus agreed_data discrepancies failing_agents].
  split; [reflexivity|]. split; [reflexivity|]. split; [reflexivity|].
  exists (fst best, r). split; [exact Hrin|reflexivity].
Qed.

(** X15. The consensus check cannot tell the trees of replica runs apart:
    any non-empty collection of results of [process_statement], whatever the
    statement texts, types and companies they were run on, passes it under
    either tolerance profile, with no discrepancy and no failing replica,
    and the agreed tree is the tree of one of them. *)
Theorem pipeline_replicas_always_agree :
  forall (rel floor : Q) (with_tolerance : bool)
         (agent_results : list (string * AgentResult.t)),
    agent_results <> [] ->
    (forall x, In x agent_results ->
       exists (id : string) (self : ToolOrchestrator)
              (text statement_type company : string)
              (log log' : calculation_log),
         base_process_statement id self text statement_type company log
         = Ok (snd x, log')) ->
    exists c : ConsensusResult,
      validate_consensus_with rel floor with_tolerance agent_results = Ok c
      /\ is_consensus c = true
      /\ discrepancies c = [] /\ failing_agents c = []
      /\ exists x, In x agent_results
           /\ agreed_data c = AgentResult.extracted_data (snd x).
Proof.
  intros rel floor with_tolerance agent_results Hne Hpipe.
  apply validate_consensus_zero_figures; [exact Hne|].
  intros x Hx.
  destruct (Hpipe x Hx)
    as (id & self & text & statement_type & company & log & log' & Hrun).
  destruct (replica_key_figures id self text statement_type company log)
    as (r & log1 & Hr & Hfig).
  rewrite Hrun in Hr. injection Hr as <- _. rewrite Hfig.
  destruct (_ && _); repeat constructor.
Qed.

(** ** Reading amounts *)

Lemma number_char_plain (c : ascii) :
  is_number_char c = true ->
  is_space c = false
  /\ Ascii.eqb c "("%char = false /\ Ascii.eqb c ")"%char = false
  /\ Ascii.eqb c "-"%char = false /\ Ascii.eqb c "+"%char = false.
Proof.
  destruct c as [[] [] [] [] [] [] [] []]; intros H;
    try discriminate; repeat split; reflexivity.
Qed.

Lemma lstrip_chars_plain (l : list ascii) :
  forallb (fun c => negb (is_space c)) l = true -> lstrip_chars l = l.
Proof.
  destruct l as [|c l]; simpl; [reflexivity|].
  intros H. apply andb_true_iff in H. destruct H as [Hc _].
  apply negb_true_iff in Hc. rewrite Hc. reflexivity.
Qed.

Lemma strip_plain (l : list ascii) :
  forallb (fun c => negb (is_space c)) l = true ->
  strip (of_chars l) = of_chars l.
Proof.
  intros H. unfold strip. rewrite chars_of_chars.
  rewrite (lstrip_chars_plain l H).
  rewrite lstrip_chars_plain; [rewrite rev_involutive; reflexivity|].
  rewrite forallb_forall in *. intros c Hc. apply H. apply in_rev. exact Hc.
Qed.

Lemma filter_keeps_all {A : Type} (f : A -> bool) (l : list A) :
  forallb f l = true -> filter f l = l.
Proof.
  induction l as [|x l IH]; simpl; [reflexivity|].
  intros H. apply andb_true_iff in H. destruct H as [Hx Hl].
  rewrite Hx, (IH Hl). reflexivity.
Qed.

Lemma map_fixes_all {A : Type} (f : A -> A) (l : list A) :
  (forall x, In x l -> f x = x) -> map f l = l.
Proof.
  induction l as [|x l IH]; simpl; [reflexivity|].
  intros H. rewrite (H x (or_introl eq_refl)), IH; [reflexivity|].
  intros y Hy. apply H. right. exact Hy.
Qed.

Lemma signed_decimal_plain (l : list ascii) :
  forallb is_number_char l = true -> signed_decimal l = unsigned_decimal l.
Proof.
  destruct l as [|c l]; [reflexivity|]. simpl forallb.
  intros H. apply andb_true_iff in H. destruct H as [Hc _].
  destruct c as [[] [] [] [] [] [] [] []]; try discriminate; reflexivity.
Qed.

(** X16. Accounting notation.  On a run of digits, commas and dots enclosed
    in parentheses the calculator reads the negated amount of the run, and
    it fails on the enclosed run exactly when it fails on the bare one. *)
Theorem precise_decimal_accounting_notation :
  forall s : string,
    forallb is_number_char (chars s) = true ->
    precise_decimal (PStr ("(" ++ s ++ ")"))
    = match precise_decimal (PStr s) with
      | Ok q => Ok (- q)%Q
      | Raise e => Raise e
      end.
Proof.
  intros s Hs.
  set (f := filter (fun x => negb (Ascii.eqb x ","%char)) (chars s)).
  assert (Hf : forall c, In c f -> is_number_char c = true).
  { intros c Hc. unfold f in Hc. apply filter_In in Hc.
    rewrite forallb_forall in Hs. apply Hs. apply Hc. }
  assert (Hnum : forallb is_number_char f = true)
    by (apply forallb_forall; exact Hf).
  assert (Hplain : forallb (fun c => negb (is_space c)) f = true).
  { apply forallb_forall. intros c Hc.
    destruct (number_char_plain c (Hf c Hc)) as (H & _). rewrite H.
    reflexivity. }
  assert (Hopen : map (fun x => if Ascii.eqb x "("%char then "-"%char else x) f
                  = f).
  { apply map_fixes_all. intros c Hc.
    destruct (number_char_plain c (Hf c Hc)) as (_ & H & _). rewrite H.
    reflexivity. }
  assert (Hclose : filter (fun x => negb (Ascii.eqb x ")"%char)) f = f).
  { apply filter_keeps_all. apply forallb_forall. intros c Hc.
    destruct (number_char_plain c (Hf c Hc)) as (_ & _ & H & _). rewrite H.
    reflexivity. }
  assert (Hplain' : forallb (fun c => negb (is_space c)) ("-"%char :: f)
                    = true)
    by (simpl; exact Hplain).
  assert (Hbare : precise_decimal (PStr s)
                  = match unsigned_decimal f with
                    | Some q => Ok q
                    | None => Raise InvalidOperation
                    end).
  { unfold precise_decimal, remove_char, replace_char. fold f.
    rewrite !chars_of_chars, Hopen, Hclose.
    rewrite (strip_plain f Hplain).
    unfold decimal_of_string. rewrite (strip_plain f Hplain), chars_of_chars.
    rewrite (signed_decimal_plain f Hnum). reflexivity. }
  rewrite Hbare.
  unfold precise_decimal, remove_char, replace_char.
  rewrite !chars_app. change (chars "(") with ["("%char].
  change (chars ")") with [")"%char].
  rewrite !filter_app. cbn [filter app Ascii.eqb Bool.eqb negb].
  fold f. rewrite !chars_of_chars. cbn [map Ascii.eqb Bool.eqb].
  rewrite map_app, Hopen. cbn [map Ascii.eqb Bool.eqb].
  cbn [filter Ascii.eqb Bool.eqb negb].
  rewrite filter_app, Hclose. cbn [filter Ascii.eqb Bool.eqb negb].
  rewrite app_nil_r.
  rewrite (strip_plain ("-"%char :: f) Hplain').
  unfold decimal_of_string.
  rewrite (strip_plain ("-"%char :: f) Hplain'), chars_of_chars.
  cbn [signed_decimal].
  destruct (unsigned_decimal f); reflexivity.
Qed.

(** ** The buckets of the extractor *)

Lemma clean_numbers_of_above (raw_numbers : list string) :
  Forall (fun q => (1000 < q)%Q) (clean_numbers_of raw_numbers).
Proof.
  induction raw_numbers as [|num_str r IH]; simpl; [constructor|].
  destruct (float_of_string (remove_char "," num_str)) as [q|]; [|exact IH].
  destruct (Qlt_bool 1000 q) eqn:E; [|exact IH].
  constructor; [apply Qlt_bool_iff; exact E|exact IH].
Qed.

Lemma three_slices {A : Type} (a b : nat) (l : list A) :
  (a <= b)%nat ->
  (firstn a l ++ slice a b l ++ skipn b l)%list = l.
Proof.
  intros Hab. unfold slice.
  replace (skipn b l) with (skipn (b - a) (skipn a l))
    by (rewrite skipn_skipn; f_equal; lia).
  rewrite (firstn_skipn (b - a) (skipn a l)).
  apply firstn_skipn.
Qed.

(** X17. Every extracted value exceeds 1000, and the three buckets cover
    the values as follows: with more than six values they split the whole
    list in order, nothing lost and nothing repeated; with four to six
    values only the first third is in a bucket; with at most three values
    the first bucket is the whole list. *)
Theorem buckets_cover :
  forall text : string,
    let numbers := _extract_financial_values text in
    let n := List.length (all_values numbers) in
    Forall (fun q => (1000 < q)%Q) (all_values numbers)
    /\ (current_assets numbers ++ fixed_assets numbers
        ++ liabilities numbers)%list
       = (if (6 <? n)%nat then all_values numbers
          else if (3 <? n)%nat then firstn (n / 3) (all_values numbers)
          else all_values numbers)
    /\ List.length (current_assets numbers)
       = (if (3 <? n)%nat then n / 3 else n)%nat.
Proof.
  intros text numbers n. subst numbers n.
  unfold _extract_financial_values.
  cbn [all_values current_assets fixed_assets liabilities].
  set (clean_numbers := clean_numbers_of _).
  set (n := List.length clean_numbers).
  split; [apply clean_numbers_of_above|].
  assert (Hthird : (n / 3 <= n)%nat) by (apply Nat.Div0.div_le_upper_bound; lia).
  split.
  - destruct (6 <? n)%nat eqn:E6.
    + apply Nat.ltb_lt in E6.
      assert (E3 : (3 <? n)%nat = true) by (apply Nat.ltb_lt; lia).
      rewrite E3. apply three_slices.
      apply Nat.Div0.div_le_mono. lia.
    + destruct (3 <? n)%nat; rewrite !app_nil_r; reflexivity.
  - destruct (3 <? n)%nat; [|reflexivity].
    rewrite length_firstn. fold n. lia.
Qed.

(** ** Fewer than two replicas, and the bounds of the retry loop *)



(** X19. The bounds of the retry loop.  With a negative [max_retries] the
    loop body never runs: the agents are not consulted and the result is the
    empty tree with no attempt record.  With a bound that is not negative
    and no agent, the first attempt fails on [agents[0]]. *)
Theorem retry_loop_bounds :
  forall (self : BaseTripleAgentSystem)
         (text statement_type company : string) (log : calculation_log),
    (max_retries self < 0 ->
     forall agents : list BaseFinancialAgent,
       _process_with_consensus self agents text statement_type company log
       = Ok (PDict [], [], log))
    /\ (0 <= max_retries self ->
        _process_with_consensus self [] text statement_type company log
        = Raise IndexError).
Proof.
  intros self text statement_type company log.
  unfold _process_with_consensus. split.
  - intros Hneg agents.
    replace (Z.to_nat (max_retries self + 1)) with 0%nat by lia.
    reflexivity.
  - intros Hpos.
    destruct (Z.to_nat (max_retries self + 1)) as [|n] eqn:E; [lia|].
    reflexivity.
Qed.

(** ** Tool names outside the dispatch, and the size of a plan *)

Lemma run_tool_unknown (te : ToolExecution) (prev : option pyval)
  (log : calculation_log) :
  ~ In (tool_name te) known_tools ->
  run_tool te prev log
  = match prev with
    | Some r => Ok (r, log)
    | None => Raise UnboundLocalError
    end.
Proof.
  intros Hun. unfold run_tool.
  repeat match goal with
         | |- context [String.eqb (tool_name te) ?s] =>
             let E := fresh "E" in
             destruct (String.eqb (tool_name te) s) eqn:E;
             [apply String.eqb_eq in E; exfalso; apply Hun; rewrite E;
              unfold known_tools; cbn [In]; tauto|]
         end.
  reflexivity.
Qed.

(** X20. The executor does not reject a tool name outside its dispatch.
    After an earlier operation has bound the local [result], an operation
    with such a name stores that previous result again under its own path
    and counts as executed, and nothing is added to the audit log. *)
Theorem unknown_tool_reuses_previous_result :
  forall (st : ExecState) (tool_exec : ToolExecution) (a b : string)
         (r : pyval),
    ~ In (tool_name tool_exec) known_tools ->
    last_result st = Some r ->
    no_dot a -> no_dot b ->
    expected_result_key tool_exec = (a ++ "." ++ b)%string ->
    all_dicts (results st) ->
    exists st' : ExecState,
      execute_step st tool_exec = Ok st'
      /\ leaf_at a b r (results st')
      /\ tool_execution_count st' = tool_execution_count st + 1
      /\ log_now st' = log_now st
      /\ last_result st' = Some r.
Proof.
  intros st tool_exec a b r Hun Hlast Ha Hb Hkey Hd.
  unfold execute_step.
  rewrite (run_tool_unknown tool_exec (last_result st) (log_now st) Hun).
  rewrite Hlast, Hkey.
  rewrite (store_two_component (results st) a b r Ha Hb Hd).
  eexists. split; [reflexivity|].
  cbn [results tool_execution_count log_now last_result].
  split; [apply leaf_at_stored|]. repeat split.
Qed.

Lemma third_bounds (n : nat) :
  (6 < n)%nat -> (n / 3 < 2 * n / 3 /\ n / 3 < n)%nat.
Proof.
  intros Hn.
  pose proof (Nat.div_mod_eq n 3) as H1.
  pose proof (Nat.mod_upper_bound n 3 ltac:(lia)) as H2.
  pose proof (Nat.div_mod_eq (2 * n) 3) as H3.
  pose proof (Nat.mod_upper_bound (2 * n) 3 ltac:(lia)) as H4.
  lia.
Qed.

Lemma buckets_emptiness (text : string) :
  let numbers := _extract_financial_values text in
  let n := List.length (all_values numbers) in
  negb (is_empty (current_assets numbers)) = (1 <=? n)%nat
  /\ negb (is_empty (fixed_assets numbers)) = (7 <=? n)%nat.
Proof.
  intros numbers n. subst numbers n. unfold _extract_financial_values.
  cbn [all_values current_assets fixed_assets].
  set (l := clean_numbers_of _). split.
  - destruct l as [|x l']; [reflexivity|].
    destruct (3 <? List.length (x :: l'))%nat eqn:E3; [|reflexivity].
    apply Nat.ltb_lt in E3.
    assert (Hdiv : (1 <= List.length (x :: l') / 3)%nat)
      by (apply Nat.div_le_lower_bound; lia).
    destruct (List.length (x :: l') / 3)%nat; [lia|reflexivity].
  - destruct (6 <? List.length l)%nat eqn:E6.
    + apply Nat.ltb_lt in E6.
      destruct (third_bounds (List.length l) E6) as (Hlt & Hlt').
      assert (Hlen : (1 <= List.length
                             (slice (List.length l / 3)
                                (2 * List.length l / 3) l))%nat).
      { unfold slice. rewrite length_firstn, length_skipn. lia. }
      replace (7 <=? List.length l)%nat with true
        by (symmetry; apply Nat.leb_le; lia).
      destruct (slice _ _ l); [simpl in Hlen; lia|reflexivity].
    + apply Nat.ltb_ge in E6.
      replace (7 <=? List.length l)%nat with false
        by (symmetry; apply Nat.leb_gt; lia).
      reflexivity.
Qed.

(** X21. The size of a plan is a function of the statement type and of the
    number n of extracted values alone.  A balance sheet gets one operation
    for each of the thresholds 1, 2, 3, 6 and 7 that n reaches, an income
    statement two operations from 2 values and a third from 4, a cash flow
    statement one from 3 and another from 6, any other type none; no plan
    has more than five operations, and [total_tool_count] is the length of
    the plan. *)
Theorem plan_size :
  forall (self : ToolOrchestrator) (text statement_type : string),
    let plan := create_standardized_calculation_plan self text statement_type in
    let n := List.length (all_values (_extract_financial_values text)) in
    total_tool_count plan = Z.of_nat (List.length (required_tools plan))
    /\ List.length (required_tools plan)
       = (if is_balance_sheet statement_type
          then at_least 1 n + at_least 2 n + at_least 3 n + at_least 6 n
               + at_least 7 n
          else if String.eqb statement_type "laba_rugi"
          then 2 * at_least 2 n + at_least 4 n
          else if String.eqb statement_type "arus_kas"
          then at_least 3 n + at_least 6 n
          else 0)%nat
    /\ (List.length (required_tools plan) <= 5)%nat.
Proof.
  intros self text statement_type plan n. subst plan.
  unfold create_standardized_calculation_plan.
  cbn [total_tool_count required_tools].
  split; [reflexivity|].
  assert (Hsize :
    List.length (plan_tools (_extract_financial_values text) statement_type)
    = (if is_balance_sheet statement_type
       then at_least 1 n + at_least 2 n + at_least 3 n + at_least 6 n
            + at_least 7 n
       else if String.eqb statement_type "laba_rugi"
       then 2 * at_least 2 n + at_least 4 n
       else if String.eqb statement_type "arus_kas"
       then at_least 3 n + at_least 6 n
       else 0)%nat).
  { unfold plan_tools. fold (is_balance_sheet statement_type).
    destruct (is_balance_sheet statement_type).
    { unfold _create_balance_sheet_tools.
      destruct (buckets_emptiness text) as (-> & ->). fold n.
      unfold at_least.
      destruct (1 <=? n)%nat; destruct (7 <=? n)%nat;
        destruct (2 <=? n)%nat; destruct (3 <=? n)%nat;
        destruct (6 <=? n)%nat; reflexivity. }
    destruct (String.eqb statement_type "laba_rugi").
    { unfold _create_income_statement_tools. fold n. unfold at_least.
      destruct (2 <=? n)%nat; destruct (4 <=? n)%nat; reflexivity. }
    destruct (String.eqb statement_type "arus_kas").
    { unfold _create_cash_flow_tools. fold n. unfold at_least.
      destruct (3 <=? n)%nat; destruct (6 <=? n)%nat; reflexivity. }
    reflexivity. }
  split; [exact Hsize|]. rewrite Hsize. unfold at_least.
  destruct (is_balance_sheet statement_type).
  { destruct (1 <=? n)%nat; destruct (7 <=? n)%nat;
      destruct (2 <=? n)%nat; destruct (3 <=? n)%nat;
      destruct (6 <=? n)%nat; simpl; lia. }
  destruct (String.eqb statement_type "laba_rugi").
  { destruct (2 <=? n)%nat; destruct (4 <=? n)%nat; simpl; lia. }
  destruct (String.eqb statement_type "arus_kas").
  { destruct (3 <=? n)%nat; destruct (6 <=? n)%nat; simpl; lia. }
  lia.
Qed.

End Runtime.

(* ================================================================== *)
(** * Evaluations of the code *)

(** C1. A plan of one footing validation executes without error and leaves
    three entries in the audit log (the inner sum, the inner subtraction and
    the validation itself), so the count check of the usage validator fails
    for the plan's count of 1. *)
Theorem footing_plan_leaves_three_entries :
  forall (py_str json_dumps : pyval -> string) (log0 : calculation_log),
  exists (results : list (string * pyval)) (log : calculation_log)
         (leaf : pyval),
    execute_mandatory_calculations py_str footing_only_plan log0
    = Ok (results, log)
    /\ get2 "footing_validation" "status" PNone results = Ok leaf
    /\ field "precision" leaf = Some (PStr "high")
    /\ field "error" leaf = None
    /\ total_tool_count footing_only_plan = 1
    /\ List.length log = 3%nat
    /\ map (field "operation") log
       = [Some (PStr "sum"); Some (PStr "subtract");
          Some (PStr "footing_validation")]
    /\ forall data : pyval,
         validate_tool_usage json_dumps data
           (total_tool_count footing_only_plan) log
         = (false, "Expected 1 tools, got 3").
Proof.
  intros py_str json_dumps log0. do 3 eexists.
  split; [vm_compute; reflexivity|].
  split; [vm_compute; reflexivity|].
  split; [vm_compute; reflexivity|].
  split; [vm_compute; reflexivity|].
  split; [reflexivity|].
  split; [vm_compute; reflexivity|].
  split; [vm_compute; reflexivity|].
  intros data. vm_compute. reflexivity.
Qed.

(** C8. On a plan whose second target path runs through a number stored by
    the first operation, the store of the result fails, the handler's store
    of the error leaf fails in the same way, and the executor raises. *)
Theorem colliding_paths_plan_raises :
  forall (py_str : pyval -> string) (log0 : calculation_log),
    execute_mandatory_calculations py_str colliding_paths_plan log0
    = Raise TypeError.
Proof.
  intros py_str log0. vm_compute. reflexivity.
Qed.

(** C2. For the balance sheet text "5000 3000 2000" the plan has three
    operations; every replica run leaves two log entries, the usage
    validator reports the mismatch, yet the replica reports three tool
    calls.  The retry loop therefore sees no inconsistency: it goes on to
    the consensus check and returns the agreed tree with an empty attempt
    record. *)
Theorem usage_mismatch_reaches_consensus :
  forall (py_str json_dumps : pyval -> string),
    let text := "5000 3000 2000" in
    let system := GeminiTripleAgentSystem first_seen_order 2 in
    let agents := _create_agents py_str json_dumps in
    total_tool_count
      (create_standardized_calculation_plan {| calculation_plan := None |}
         text "neraca") = 3
    /\ (forall (id : string) (log0 : calculation_log),
          exists (r : AgentResult.t) (log : calculation_log),
            base_process_statement py_str json_dumps id
              {| calculation_plan := None |} text "neraca" "PT" log0
            = Ok (r, log)
            /\ List.length log = 2%nat
            /\ AgentResult.errors r = ["Expected 3 tools, got 2"]
            /\ AgentResult.tool_calls_made r = 3)
    /\ exists (data : pyval) (log : calculation_log)
              (agent_results : list (string * AgentResult.t))
              (c : ConsensusResult),
         _process_with_consensus system agents text "neraca" "PT" []
         = Ok (data, [], log)
         /\ List.length log = 2%nat
         /\ run_agents agents text "neraca" "PT" 3 [] true []
            = Ok (agent_results, true, log)
         /\ _validate_consensus system agent_results = Ok c
         /\ is_consensus c = true
         /\ data = agreed_data c.
Proof.
  intros py_str json_dumps. cbv zeta.
  split; [vm_compute; reflexivity|]. split.
  - intros id log0. do 2 eexists.
    split; [vm_compute; reflexivity|].
    split; [vm_compute; reflexivity|].
    split; vm_compute; reflexivity.
  - do 4 eexists.
    split; [vm_compute; reflexivity|].
    split; [vm_compute; reflexivity|].
    split; [vm_compute; reflexivity|].
    split; [vm_compute; reflexivity|].
    split; vm_compute; reflexivity.
Qed.

(** C9, counterexample. With no retry permitted and one replica whose
    reported tool count differs from the plan's, the only attempt fails the
    usage check and the loop returns the empty tree, not the tree of that
    first replica. *)
Lemma usage_failure_returns_empty_tree :
  exists (first : AgentResult.t) (retries : list pyval)
         (log : calculation_log),
    process_statement miscounting_agent "" "neraca" "PT" [] = Ok (first, [])
    /\ _process_with_consensus (GeminiTripleAgentSystem first_seen_order 0)
         [miscounting_agent] "" "neraca" "PT" []
       = Ok (PDict [], retries, log)
    /\ List.length retries = 1%nat
    /\ map (field "reason") retries
       = [Some (PStr "tool_execution_inconsistent")]
    /\ AgentResult.extracted_data first <> PDict [].
Proof.
  do 3 eexists.
  split; [vm_compute; reflexivity|].
  split; [vm_compute; reflexivity|].
  split; [vm_compute; reflexivity|].
  split; [vm_compute; reflexivity|].
  vm_compute. discriminate.
Qed.


(* ================================================================== *)
(** * The theorems at concrete inputs *)


Lemma plan_builder_deterministic_witness :
  all_values (_extract_financial_values "a 5000 b 3000")
  = all_values (_extract_financial_values "5000 3000")
  /\ create_standardized_calculation_plan {| calculation_plan := None |}
       "a 5000 b 3000" "laba_rugi"
     = create_standardized_calculation_plan {| calculation_plan := None |}
         "5000 3000" "laba_rugi".
Proof.
  assert (Hv : all_values (_extract_financial_values "a 5000 b 3000")
               = all_values (_extract_financial_values "5000 3000"))
    by (vm_compute; reflexivity).
  split; [exact Hv|].
  pose proof (plan_builder_deterministic {| calculation_plan := None |}
                {| calculation_plan := None |} "5000 3000" "laba_rugi") as H.
  cbv zeta in H. destruct H as (_ & _ & H & _).
  apply H. exact Hv.
Defined.



Lemma percentage_zero_total_witness :
  precise_decimal (PInt 0) = Ok (inject_Z 0)
  /\ (inject_Z 0 == 0)%Q
  /\ exists (r : pyval) (msg : string),
       calculate_percentage no_text (PStr "abc") (PInt 0) [] = (r, [])
       /\ field "precision" r = Some (PStr "error")
       /\ field "error" r = Some (PStr msg)
       /\ field "percentage" r = Some (PFloat 0)
       /\ field "operation" r = Some (PStr "percentage").
Proof.
  split; [reflexivity|]. split; [reflexivity|].
  apply (percentage_zero_total no_text (PStr "abc") (PInt 0) (inject_Z 0) []);
    reflexivity.
Defined.

Lemma retry_exhausted_fallback_witness :
  let self := GeminiTripleAgentSystem first_seen_order 0 in
  let retries :=
    [usage_retry_info 0 0 [("agent_1", miscounting_result "neraca" "PT")]] in
  0 <= max_retries self
  /\ _process_with_consensus self [miscounting_agent] "" "neraca" "PT" []
     = Ok (PDict [], retries, [])
  /\ List.length retries = Z.to_nat (max_retries self + 1)
  /\ map (field "attempt") retries = attempt_numbers 0 (List.length retries).
Proof.
  intros self retries.
  assert (Hmax : 0 <= max_retries self) by (simpl; lia).
  assert (Hrun : _process_with_consensus self [miscounting_agent] ""
                   "neraca" "PT" [] = Ok (PDict [], retries, []))
    by (vm_compute; reflexivity).
  assert (Hlen : List.length retries = Z.to_nat (max_retries self + 1))
    by reflexivity.
  split; [exact Hmax|]. split; [exact Hrun|]. split; [exact Hlen|].
  exact (proj1 (retry_exhausted_fallback self [miscounting_agent] ""
                  "neraca" "PT" [] (PDict []) retries [] Hmax Hrun Hlen)).
Defined.



Lemma failed_operation_leaves_error_leaf_witness :
  let st := {| results := []; tool_execution_count := 0;
               last_result := None; log_now := [] |} in
  let te := {| tool_name := "unknown_tool"; parameters := [];
               description := ""; expected_result_key := "a.b" |} in
  no_dot "a" /\ no_dot "b" /\ all_dicts (results st)
  /\ run_tool no_text te (last_result st) (log_now st)
     = Raise UnboundLocalError
  /\ exists st' : ExecState,
       execute_step no_text st te = Ok st'
       /\ leaf_at "a" "b"
            (PDict [("error", PStr (str_of_exn UnboundLocalError))])
            (results st').
Proof.
  intros st te.
  assert (Ha : no_dot "a") by reflexivity.
  assert (Hb : no_dot "b") by reflexivity.
  assert (Hd : all_dicts (results st)) by constructor.
  assert (Hr : run_tool no_text te (last_result st) (log_now st)
               = Raise UnboundLocalError) by reflexivity.
  split; [exact Ha|]. split; [exact Hb|]. split; [exact Hd|].
  split; [exact Hr|].
  destruct (failed_operation_leaves_error_leaf no_text st te "a" "b"
              UnboundLocalError Ha Hb eq_refl Hd Hr)
    as (st' & Hs & Hl & _).
  exists st'. split; [exact Hs|exact Hl].
Defined.

Lemma executor_returns_on_two_component_paths_witness :
  Forall (fun te => two_component (expected_result_key te))
    (required_tools footing_only_plan)
  /\ exists (tree : list (string * pyval)) (log' : calculation_log),
       execute_mandatory_calculations no_text footing_only_plan [] 
       = Ok (tree, log')
       /\ all_dicts tree.
Proof.
  assert (H : Forall (fun te => two_component (expected_result_key te))
                (required_tools footing_only_plan)).
  { constructor; [|constructor].
    exists "footing_validation", "status".
    split; [reflexivity|]. split; reflexivity. }
  split; [exact H|].
  destruct (executor_returns_on_two_component_paths no_text
              footing_only_plan [] H) as (tree & log' & He & Hd & _).
  exists tree, log'. split; [exact He|exact Hd].
Defined.

Lemma replica_run_outcome_witness :
  is_balance_sheet "neraca"
  && (3 <=? List.length
              (all_values (_extract_financial_values "5000 3000 2000")))%nat
  = true
  /\ exists (r : AgentResult.t) (log' : calculation_log),
       base_process_statement no_text no_text "agent_1"
         {| calculation_plan := None |} "5000 3000 2000" "neraca" "PT" []
       = Ok (r, log')
       /\ AgentResult.confidence r = 10%Q.
Proof.
  assert (Hb : is_balance_sheet "neraca"
               && (3 <=? List.length
                     (all_values
                        (_extract_financial_values "5000 3000 2000")))%nat
               = true) by (vm_compute; reflexivity).
  split; [exact Hb|].
  destruct (replica_run_outcome no_text no_text "agent_1"
              {| calculation_plan := None |} "5000 3000 2000" "neraca"
              "PT" []) as (r & log' & Hr & _ & _ & _ & Hc).
  exists r, log'. split; [exact Hr|]. apply (Hc Hb).
Defined.


Lemma identical_replicas_agree_at_once_witness :
  let self := GeminiTripleAgentSystem first_seen_order 2 in
  let ids := ["agent_1"; "agent_2"; "agent_3"] in
  _validate_consensus self
  = validate_consensus_with first_seen_order (1 # 10000) 1 true
  /\ 0 <= max_retries self
  /\ ids <> []
  /\ exists (r : AgentResult.t) (log' : calculation_log),
       _process_with_consensus self (map (new_agent no_text no_text) ids)
         "5000 3000 2000" "neraca" "PT" []
       = Ok (AgentResult.extracted_data r, [], log').
Proof.
  intros self ids.
  assert (Hv : _validate_consensus self
               = validate_consensus_with first_seen_order (1 # 10000) 1 true)
    by reflexivity.
  assert (Hm : 0 <= max_retries self) by (simpl; lia).
  assert (Hi : ids <> []) by discriminate.
  split; [exact Hv|]. split; [exact Hm|]. split; [exact Hi|].
  destruct (identical_replicas_agree_at_once no_text no_text first_seen_order
              self (1 # 10000) 1 true ids "5000 3000 2000" "neraca" "PT" []
              Hv Hm Hi) as (r & log' & _ & Hp).
  exists r, log'. exact Hp.
Defined.



Lemma pipeline_replicas_always_agree_witness :
  exists (r1 r2 : AgentResult.t) (l1 l2 : calculation_log),
    base_process_statement no_text no_text "agent_1"
      {| calculation_plan := None |} "5000 3000 2000" "neraca" "PT" []
    = Ok (r1, l1)
    /\ base_process_statement no_text no_text "agent_2"
         {| calculation_plan := None |} "90000 80000" "laba_rugi" "PT" []
       = Ok (r2, l2)
    /\ [("agent_1", r1); ("agent_2", r2)] <> []
    /\ exists c : ConsensusResult,
         validate_consensus_with first_seen_order (1 # 10000) 1 true
           [("agent_1", r1); ("agent_2", r2)] = Ok c
         /\ is_consensus c = true.
Proof.
  destruct (base_process_statement no_text no_text "agent_1"
              {| calculation_plan := None |} "5000 3000 2000" "neraca" "PT"
              []) as [[r1 l1]|e1] eqn:E1; [|vm_compute in E1; discriminate].
  destruct (base_process_statement no_text no_text "agent_2"
              {| calculation_plan := None |} "90000 80000" "laba_rugi" "PT"
              []) as [[r2 l2]|e2] eqn:E2; [|vm_compute in E2; discriminate].
  exists r1, r2, l1, l2.
  assert (Hne : [("agent_1", r1); ("agent_2", r2)] <> []) by discriminate.
  split; [reflexivity|]. split; [reflexivity|]. split; [exact Hne|].
  destruct (pipeline_replicas_always_agree no_text no_text first_seen_order
              (1 # 10000) 1 true [("agent_1", r1); ("agent_2", r2)] Hne)
    as (c & Hc & Hi & _).
  - intros x [<-|[<-|[]]].
    + exists "agent_1", {| calculation_plan := None |}, "5000 3000 2000",
        "neraca", "PT", [], l1. exact E1.
    + exists "agent_2", {| calculation_plan := None |}, "90000 80000",
        "laba_rugi", "PT", [], l2. exact E2.
  - exists c. split; [exact Hc|exact Hi].
Defined.

Lemma precise_decimal_accounting_notation_witness :
  forallb is_number_char (chars "1,234.50") = true
  /\ precise_decimal (PStr "(1,234.50)") = Ok (- (123450 # 100))%Q.
Proof.
  assert (H : forallb is_number_char (chars "1,234.50") = true)
    by reflexivity.
  split; [exact H|].
  exact (precise_decimal_accounting_notation "1,234.50" H).
Defined.

Lemma retry_loop_bounds_witness :
  let negative := GeminiTripleAgentSystem first_seen_order (-1) in
  let usual := GeminiTripleAgentSystem first_seen_order 2 in
  max_retries negative < 0
  /\ _process_with_consensus negative [miscounting_agent] "" "neraca" "PT" []
     = Ok (PDict [], [], [])
  /\ 0 <= max_retries usual
  /\ _process_with_consensus usual [] "" "neraca" "PT" [] = Raise IndexError.
Proof.
  intros negative usual.
  assert (Hneg : max_retries negative < 0) by (simpl; lia).
  assert (Hpos : 0 <= max_retries usual) by (simpl; lia).
  split; [exact Hneg|].
  split; [exact (proj1 (retry_loop_bounds negative "" "neraca" "PT" []) Hneg
                   [miscounting_agent])|].
  split; [exact Hpos|].
  exact (proj2 (retry_loop_bounds usual "" "neraca" "PT" []) Hpos).
Defined.

Lemma unknown_tool_reuses_previous_result_witness :
  let r := PDict [("result", PFloat 7)] in
  let st := {| results := []; tool_execution_count := 1;
               last_result := Some r; log_now := [] |} in
  let te := {| tool_name := "multiply_financial_values"; parameters := [];
               description := ""; expected_result_key := "a.b" |} in
  ~ In (tool_name te) known_tools
  /\ last_result st = Some r
  /\ no_dot "a" /\ no_dot "b" /\ all_dicts (results st)
  /\ exists st' : ExecState,
       execute_step no_text st te = Ok st'
       /\ leaf_at "a" "b" r (results st')
       /\ tool_execution_count st' = 2.
Proof.
  intros r st te.
  assert (Hun : ~ In (tool_name te) known_tools).
  { unfold known_tools. cbn [In tool_name te]. intros H.
    repeat (destruct H as [H|H]; [discriminate H|]). exact H. }
  assert (Hlast : last_result st = Some r) by reflexivity.
  assert (Ha : no_dot "a") by reflexivity.
  assert (Hb : no_dot "b") by reflexivity.
  assert (Hd : all_dicts (results st)) by constructor.
  split; [exact Hun|]. split; [exact Hlast|]. split; [exact Ha|].
  split; [exact Hb|]. split; [exact Hd|].
  destruct (unknown_tool_reuses_previous_result no_text st te "a" "b" r
              Hun Hlast Ha Hb eq_refl Hd) as (st' & Hs & Hl & Hc & _).
  exists st'. split; [exact Hs|]. split; [exact Hl|exact Hc].
Defined.
